(** * Gajim: Jingle content negotiation and file-transfer tracking

    A shallow embedding of
    - [gajim/common/jingle_content.py] (class [JingleContent]) and
    - [gajim/gtk/filetransfer.py] (class [FileTransfersWindow]: the
      throughput estimator, the progress/status derivation, pause/resume
      and the hash-mismatch recovery),
    together with the properties the design document states about them.

    Conventions of the embedding.
    - Python objects that are mutated in place are state components; a
      method is a function in the monad [M S] below, which threads the
      state and may raise. A raise keeps the mutations made so far, as in
      Python.
    - [None] is [None]; an attribute access on [None] raises
      [AttributeError].
    - Python [int] is [Z]. Python [float] (timestamps, speeds, ETA) is
      idealised as an exact rational [Q]; [round] is round-half-to-even.
    - Collaborators whose code is not part of the two modules (transport,
      session, contacts, certificate store, Gtk) appear either as section
      variables or as a log of the calls made to them. *)

From Stdlib Require Import ZArith QArith Qround String List Bool Lia.
From stdpp Require Import base option gmap strings list pretty.

Local Open Scope string_scope.
Local Open Scope Z_scope.

(* ===================================================================== *)
(** * Python runtime: exceptions and the state/exception monad           *)
(* ===================================================================== *)

Inductive Exn : Type :=
| AttributeError
| TypeError
| KeyError
| IndexError
| ZeroDivisionError
| FileNotFoundError.

Definition Res (A : Type) : Type := (Exn + A)%type.

Definition M (S A : Type) : Type := S -> S * Res A.

Definition ret {S A} (a : A) : M S A := fun s => (s, inr a).

Definition raise {S A} (e : Exn) : M S A := fun s => (s, inl e).

Definition bind {S A B} (m : M S A) (k : A -> M S B) : M S B :=
  fun s => match m s with
           | (s', inl e) => (s', inl e)
           | (s', inr a) => k a s'
           end.

Definition get {S} : M S S := fun s => (s, inr s).

Definition gets {S A} (f : S -> A) : M S A := fun s => (s, inr (f s)).

Definition modify {S} (f : S -> S) : M S unit := fun s => (f s, inr tt).

Definition lift_res {S A} (r : Res A) : M S A := fun s => (s, r).

(** [o.attr] where [o] may be [None]. *)
Definition attr_of {S A} (o : option A) : M S A :=
  match o with
  | Some a => ret a
  | None => raise AttributeError
  end.

Declare Scope py_scope.
Delimit Scope py_scope with py.
Notation "'let*' x ':=' c 'in' k" := (bind c (fun x => k))
  (at level 10, x pattern, c at level 100, k at level 200) : py_scope.
Notation "c ';;;' k" := (bind c (fun _ => k))
  (at level 100, k at level 200, right associativity) : py_scope.

(** [keeps R m]: running [m] takes every state to an [R]-related one,
    whether it returns or raises. *)
Definition keeps {S A} (R : S -> S -> Prop) (m : M S A) : Prop :=
  forall s, R s (fst (m s)).

(** [for x in xs: body x] *)
Fixpoint for_each {S A} (xs : list A) (body : A -> M S unit) : M S unit :=
  match xs with
  | [] => ret tt
  | x :: rest => bind (body x) (fun _ => for_each rest body)
  end.

Definition when {S} (b : bool) (body : M S unit) : M S unit :=
  if b then body else ret tt.

(** Truthiness of an optional string ([None] and [''] are falsy). *)
Definition truthy (o : option string) : bool :=
  match o with
  | Some s => negb (String.eqb s "")
  | None => false
  end.

Definition is_str (o : option string) (s : string) : bool :=
  match o with
  | Some t => String.eqb t s
  | None => false
  end.

(** Python's [round(x)] on a float: nearest integer, ties to even. *)
Definition py_round (q : Q) : Z :=
  let n := Qnum q in
  let d := Z.pos (Qden q) in
  let fl := n / d in
  let r2 := 2 * (n mod d) in
  if r2 <? d then fl
  else if d <? r2 then fl + 1
  else if Z.even fl then fl else fl + 1.

(** [x > 0] and [x == 0] on floats. *)
Definition Qpositive (q : Q) : bool := 0 <? Qnum q.
Definition Qis_zero (q : Q) : bool := Qnum q =? 0.

(* ===================================================================== *)
(** * File transfer records ([FileProp])                                 *)
(* ===================================================================== *)

(** The attributes of a [FileProp] object that the two modules read or
    write. [type_] is ['r'] for a receive and ['s'] for a send;
    [transfered_size] is the list of retained [(time, bytes)] samples;
    [continue_cb] tells whether a continue callback is registered. *)
Module file_props.

Record FileProp : Type := mkFileProp {
  account : string;
  sid : string;
  type_ : option string;
  name : option string;
  file_name : option string;
  date : option string;
  desc : option string;
  size : Z;
  hash_ : option string;
  algo : option string;
  offset : option Z;
  session_type : option string;
  transport_sid : option string;
  received_len : option Z;
  tt_account : option string;
  elapsed_time : Q;
  last_time : Q;
  transfered_size : list (Q * Z);
  started : bool;
  paused : bool;
  stalled : bool;
  connected : bool;
  stopped : bool;
  completed : bool;
  continue_cb : bool
}.

(** Attribute assignment [fp.x = v]. *)
Definition set_type_ (v : option string) (fp : FileProp) : FileProp :=
  mkFileProp (account fp) (sid fp) v (name fp) (file_name fp) (date fp)
    (desc fp) (size fp) (hash_ fp) (algo fp) (offset fp) (session_type fp)
    (transport_sid fp) (received_len fp) (tt_account fp) (elapsed_time fp)
    (last_time fp) (transfered_size fp) (started fp) (paused fp) (stalled
    fp) (connected fp) (stopped fp) (completed fp) (continue_cb fp).

Definition set_name (v : option string) (fp : FileProp) : FileProp :=
  mkFileProp (account fp) (sid fp) (type_ fp) v (file_name fp) (date fp)
    (desc fp) (size fp) (hash_ fp) (algo fp) (offset fp) (session_type fp)
    (transport_sid fp) (received_len fp) (tt_account fp) (elapsed_time fp)
    (last_time fp) (transfered_size fp) (started fp) (paused fp) (stalled
    fp) (connected fp) (stopped fp) (completed fp) (continue_cb fp).

Definition set_file_name (v : option string) (fp : FileProp) : FileProp :=
  mkFileProp (account fp) (sid fp) (type_ fp) (name fp) v (date fp) (desc
    fp) (size fp) (hash_ fp) (algo fp) (offset fp) (session_type fp)
    (transport_sid fp) (received_len fp) (tt_account fp) (elapsed_time fp)
    (last_time fp) (transfered_size fp) (started fp) (paused fp) (stalled
    fp) (connected fp) (stopped fp) (completed fp) (continue_cb fp).

Definition set_date (v : option string) (fp : FileProp) : FileProp :=
  mkFileProp (account fp) (sid fp) (type_ fp) (name fp) (file_name fp) v
    (desc fp) (size fp) (hash_ fp) (algo fp) (offset fp) (session_type fp)
    (transport_sid fp) (received_len fp) (tt_account fp) (elapsed_time fp)
    (last_time fp) (transfered_size fp) (started fp) (paused fp) (stalled
    fp) (connected fp) (stopped fp) (completed fp) (continue_cb fp).

Definition set_desc (v : option string) (fp : FileProp) : FileProp :=
  mkFileProp (account fp) (sid fp) (type_ fp) (name fp) (file_name fp)
    (date fp) v (size fp) (hash_ fp) (algo fp) (offset fp) (session_type
    fp) (transport_sid fp) (received_len fp) (tt_account fp) (elapsed_time
    fp) (last_time fp) (transfered_size fp) (started fp) (paused fp)
    (stalled fp) (connected fp) (stopped fp) (completed fp) (continue_cb
    fp).

Definition set_size (v : Z) (fp : FileProp) : FileProp :=
  mkFileProp (account fp) (sid fp) (type_ fp) (name fp) (file_name fp)
    (date fp) (desc fp) v (hash_ fp) (algo fp) (offset fp) (session_type
    fp) (transport_sid fp) (received_len fp) (tt_account fp) (elapsed_time
    fp) (last_time fp) (transfered_size fp) (started fp) (paused fp)
    (stalled fp) (connected fp) (stopped fp) (completed fp) (continue_cb
    fp).

Definition set_hash_ (v : option string) (fp : FileProp) : FileProp :=
  mkFileProp (account fp) (sid fp) (type_ fp) (name fp) (file_name fp)
    (date fp) (desc fp) (size fp) v (algo fp) (offset fp) (session_type
    fp) (transport_sid fp) (received_len fp) (tt_account fp) (elapsed_time
    fp) (last_time fp) (transfered_size fp) (started fp) (paused fp)
    (stalled fp) (connected fp) (stopped fp) (completed fp) (continue_cb
    fp).

Definition set_transport_sid (v : option string) (fp : FileProp) : FileProp :=
  mkFileProp (account fp) (sid fp) (type_ fp) (name fp) (file_name fp)
    (date fp) (desc fp) (size fp) (hash_ fp) (algo fp) (offset fp)
    (session_type fp) v (received_len fp) (tt_account fp) (elapsed_time
    fp) (last_time fp) (transfered_size fp) (started fp) (paused fp)
    (stalled fp) (connected fp) (stopped fp) (completed fp) (continue_cb
    fp).

Definition set_last_time (v : Q) (fp : FileProp) : FileProp :=
  mkFileProp (account fp) (sid fp) (type_ fp) (name fp) (file_name fp)
    (date fp) (desc fp) (size fp) (hash_ fp) (algo fp) (offset fp)
    (session_type fp) (transport_sid fp) (received_len fp) (tt_account fp)
    (elapsed_time fp) v (transfered_size fp) (started fp) (paused fp)
    (stalled fp) (connected fp) (stopped fp) (completed fp) (continue_cb
    fp).

Definition set_transfered_size (v : list (Q * Z)) (fp : FileProp) : FileProp :=
  mkFileProp (account fp) (sid fp) (type_ fp) (name fp) (file_name fp)
    (date fp) (desc fp) (size fp) (hash_ fp) (algo fp) (offset fp)
    (session_type fp) (transport_sid fp) (received_len fp) (tt_account fp)
    (elapsed_time fp) (last_time fp) v (started fp) (paused fp) (stalled
    fp) (connected fp) (stopped fp) (completed fp) (continue_cb fp).

Definition set_paused (v : bool) (fp : FileProp) : FileProp :=
  mkFileProp (account fp) (sid fp) (type_ fp) (name fp) (file_name fp)
    (date fp) (desc fp) (size fp) (hash_ fp) (algo fp) (offset fp)
    (session_type fp) (transport_sid fp) (received_len fp) (tt_account fp)
    (elapsed_time fp) (last_time fp) (transfered_size fp) (started fp) v
    (stalled fp) (connected fp) (stopped fp) (completed fp) (continue_cb
    fp).

Definition set_stopped (v : bool) (fp : FileProp) : FileProp :=
  mkFileProp (account fp) (sid fp) (type_ fp) (name fp) (file_name fp)
    (date fp) (desc fp) (size fp) (hash_ fp) (algo fp) (offset fp)
    (session_type fp) (transport_sid fp) (received_len fp) (tt_account fp)
    (elapsed_time fp) (last_time fp) (transfered_size fp) (started fp)
    (paused fp) (stalled fp) (connected fp) v (completed fp) (continue_cb
    fp).

Definition set_completed (v : bool) (fp : FileProp) : FileProp :=
  mkFileProp (account fp) (sid fp) (type_ fp) (name fp) (file_name fp)
    (date fp) (desc fp) (size fp) (hash_ fp) (algo fp) (offset fp)
    (session_type fp) (transport_sid fp) (received_len fp) (tt_account fp)
    (elapsed_time fp) (last_time fp) (transfered_size fp) (started fp)
    (paused fp) (stalled fp) (connected fp) (stopped fp) v (continue_cb
    fp).

End file_props.

Abbreviation FileProp := file_props.FileProp.

(* ===================================================================== *)
(** * [gajim/gtk/filetransfer.py]: the file transfers window             *)
(* ===================================================================== *)

Module filetransfer.

Module FP := file_props.

(** ** The list store behind the window

    [Column] is the [IntEnum] of the source. A row keeps the columns that
    carry state; the three markup columns (LABELS, FILE, PROGRESS) only
    hold formatted text, and the TIME column is kept as the pair
    [(eta, speed)] that [_format_time] and [convert_bytes] render. *)

Inductive Column : Type :=
| IMAGE | LABELS | FILE | TIME | PROGRESS | PERCENT | PULSE | SID.

Inductive Cell : Type :=
| CStr (s : string)
| CInt (z : Z)
| CEst (eta : Q) (speed : Z)
| CText.

Record Row : Type := mkRow {
  row_image : string;
  row_time : Q * Z;
  row_percent : Z;
  row_pulse : Z;
  row_sid : string
}.

(** Calls that go to Gtk or to callbacks, in the order they are made. *)
Inductive UiCall : Type :=
| ModelSet (iter_ : nat) (col : Column) (v : Cell)
| SelectFunc (iter_ : nat)
| TogglePauseContinue (status : bool)
| ContinueCb
| TimeoutAddPulse (iter_ : nat).

(** The window together with the transfer record that
    [FilesProp.getFilePropByType] returns for the rows of that transfer. *)
Record Window : Type := mkWindow {
  props : FileProp;
  model : list Row;
  ui : list UiCall
}.

Definition with_props (f : FileProp -> FileProp) (w : Window) : Window :=
  mkWindow (f (props w)) (model w) (ui w).

Definition log_ui (c : UiCall) : M Window unit :=
  modify (fun w => mkWindow (props w) (model w) (ui w ++ [c])).

Definition write_cell (col : Column) (v : Cell) (r : Row) : Row :=
  match col, v with
  | IMAGE, CStr s => mkRow s (row_time r) (row_percent r) (row_pulse r) (row_sid r)
  | TIME, CEst e sp => mkRow (row_image r) (e, sp) (row_percent r) (row_pulse r) (row_sid r)
  | PERCENT, CInt z => mkRow (row_image r) (row_time r) z (row_pulse r) (row_sid r)
  | PULSE, CInt z => mkRow (row_image r) (row_time r) (row_percent r) z (row_sid r)
  | SID, CStr s => mkRow (row_image r) (row_time r) (row_percent r) (row_pulse r) s
  | _, _ => r
  end.

(** [self.model.set(iter_, col, v)] *)
Definition model_set (iter_ : nat) (col : Column) (v : Cell) : M Window unit :=
  fun w =>
    match model w !! iter_ with
    | None => (w, inl IndexError)
    | Some r =>
        (mkWindow (props w) (<[iter_ := write_cell col v r]> (model w))
                  (ui w ++ [ModelSet iter_ col v]), inr tt)
    end.

(** [self.model[iter_]] *)
Definition model_row (iter_ : nat) : M Window Row :=
  fun w => match model w !! iter_ with
           | None => (w, inl IndexError)
           | Some r => (w, inr r)
           end.

Definition MAXINT32 : Z := 2147483647.

(** [self.icons] *)
Definition icons : gmap string string :=
  list_to_map
    [ ("upload", "go-up");
      ("download", "go-down");
      ("stop", "window-close");
      ("waiting", "view-refresh");
      ("pause", "media-playback-pause");
      ("continue", "media-playback-start");
      ("ok", "emblem-ok-symbolic");
      ("computing", "system-run");
      ("hash_error", "network-error-symbolic") ].

Definition icon_of {S} (status : string) : M S string :=
  match icons !! status with
  | Some i => ret i
  | None => raise KeyError
  end.

(** ** [get_iter_by_sid]

    Walks the rows from the first one; [typ + sid] is evaluated at every
    row visited, so a [typ] that is [None] raises as soon as there is a
    row. *)
Fixpoint iter_by_sid_from (i : nat) (rows : list Row)
    (typ : option string) (sid : string) : Res (option nat) :=
  match rows with
  | [] => inr None
  | r :: rest =>
      match typ with
      | None => inl TypeError
      | Some t =>
          if String.eqb (t ++ sid) (row_sid r) then inr (Some i)
          else iter_by_sid_from (S i) rest typ sid
      end
  end.

Definition get_iter_by_sid (typ : option string) (sid : string)
    : M Window (option nat) :=
  fun w => (w, iter_by_sid_from 0 (model w) typ sid).

(** [int(file_props.received_len)] *)
Definition int_received_len : M Window Z :=
  fun w => match FP.received_len (props w) with
           | Some n => (w, inr n)
           | None => (w, inl TypeError)
           end.

(** ** [set_status] *)
Definition set_status (status : string) : M Window unit :=
  (let* fp := gets props in
   let* iter_ := get_iter_by_sid (FP.type_ fp) (FP.sid fp) in
   match iter_ with
   | None => ret tt
   | Some it =>
       (if String.eqb status "stop" then
          modify (with_props (FP.set_stopped true))
        else if String.eqb status "ok" then
          modify (with_props (FP.set_completed true)) ;;;
          let* _ := int_received_len in
          model_set it PROGRESS CText ;;;
          model_set it PULSE (CInt MAXINT32)
        else if String.eqb status "computing" then
          model_set it PULSE (CInt 1) ;;;
          let* _ := int_received_len in
          model_set it PROGRESS CText ;;;
          log_ui (TimeoutAddPulse it)
        else if String.eqb status "hash_error" then
          let* _ := int_received_len in
          model_set it PROGRESS CText ;;;
          model_set it PULSE (CInt MAXINT32)
        else ret tt) ;;;
       let* icon := icon_of status in
       model_set it IMAGE (CStr icon) ;;;
       log_ui (SelectFunc it)
   end)%py.

(** ** [_get_eta_and_speed] *)

(** The tail of the function, from [if speed == 0.] on. *)
Definition eta_of_speed (full_size transfered_size speed : Z) : Q * Z :=
  if speed =? 0 then (0%Q, 0)
  else ((inject_Z (full_size - transfered_size) / inject_Z speed)%Q, speed).

Definition _get_eta_and_speed (full_size transfered_size : Z)
    (file_props : FileProp) : Res (Q * Z) :=
  match FP.transfered_size file_props with
  | [] => inr (0%Q, 0)
  | [_] =>
      if Qis_zero (FP.elapsed_time file_props) then inl ZeroDivisionError
      else
        let speed :=
          py_round (inject_Z transfered_size / FP.elapsed_time file_props)%Q in
        inr (eta_of_speed full_size transfered_size speed)
  | first :: _ =>
      let last := List.last (FP.transfered_size file_props) first in
      let transfered := snd last - snd first in
      let tim := (fst last - fst first)%Q in
      if Qis_zero tim then inr (0%Q, 0)
      else
        let speed := py_round (inject_Z transfered / tim)%Q in
        inr (eta_of_speed full_size transfered_size speed)
  end.

(** ** [set_progress] *)

(** [percent], in tenths: [round(float(transfered_size) / full_size * 100, 1)]. *)
Definition percent10 (full_size transfered_size : Z) : Z :=
  if full_size =? 0 then 0
  else py_round (inject_Z transfered_size / inject_Z full_size * 100 * 10)%Q.

(** The status guessed for the image column (lines "try to guess what
    should be the status image"). *)
Definition progress_status (file_props : FileProp) : string :=
  let status := if is_str (FP.type_ file_props) "r" then "download" else "upload" in
  let status :=
    if FP.paused file_props then "pause"
    else if FP.stalled file_props then "waiting"
    else status in
  if negb (FP.connected file_props) then "stop" else status.

(** [file_props.transfered_size.append(x)] and [.pop(0)] *)
Definition append_sample (x : Q * Z) (fp : FileProp) : FileProp :=
  FP.set_transfered_size (FP.transfered_size fp ++ [x]) fp.

Definition pop_first_sample (fp : FileProp) : FileProp :=
  FP.set_transfered_size (List.tl (FP.transfered_size fp)) fp.

(** [if file_props.offset:] *)
Definition offset_or_zero (fp : FileProp) : Z :=
  match FP.offset fp with
  | Some o => o
  | None => 0
  end.

Definition set_progress (typ sid : string) (transfered_size : Z)
    (iter_ : option nat) : M Window unit :=
  (let* file_props := gets props in
   let full_size := FP.size file_props in
   let percent := percent10 full_size transfered_size in
   let* iter_ := match iter_ with
                 | None => get_iter_by_sid (Some typ) sid
                 | Some i => ret (Some i)
                 end in
   match iter_ with
   | None => ret tt
   | Some it =>
       let* row := model_row it in
       let just_began := (row_percent row =? 0) && (0 <? percent) in
       let transfered_size := transfered_size - offset_or_zero file_props in
       let full_size := full_size - offset_or_zero file_props in
       when (Qpositive (FP.elapsed_time file_props))
            (modify (with_props
               (append_sample (FP.last_time file_props, transfered_size)))) ;;;
       let* file_props := gets props in
       when (6 <? length (FP.transfered_size file_props))%nat
            (modify (with_props pop_first_sample)) ;;;
       let* file_props := gets props in
       let* est := lift_res
                     (_get_eta_and_speed full_size transfered_size file_props) in
       model_set it PROGRESS CText ;;;
       model_set it PERCENT (CInt (Z.quot percent 10)) ;;;
       model_set it TIME (CEst (fst est) (snd est)) ;;;
       let* icon := icon_of (progress_status file_props) in
       model_set it IMAGE (CStr icon) ;;;
       if transfered_size =? full_size then
         if is_str (FP.type_ file_props) "r"
            && is_str (FP.session_type file_props) "jingle"
            && truthy (FP.hash_ file_props)
         then set_status "computing"
         else set_status "ok"
       else when just_began (log_ui (SelectFunc it))
   end)%py.

(** ** [on_pause_restore_button_clicked]

    [is_transfer_paused] and [is_transfer_active] come from
    [gajim.common.protocol.bytestream]; [now] is the value of
    [time.time()] and [selected] the row selected in the tree view. *)
Section PauseRestore.

Variable is_transfer_paused : FileProp -> bool.
Variable is_transfer_active : FileProp -> bool.

(** [types = {'r' : 'download', 's' : 'upload'}] *)
Definition types : gmap string string :=
  list_to_map [ ("r", "download"); ("s", "upload") ].

Definition on_pause_restore_button_clicked (now : Q) (selected : option nat)
    : M Window unit :=
  match selected with
  | None => ret tt
  | Some s_iter =>
      (let* row := model_row s_iter in
       match row_sid row with
       | EmptyString => raise IndexError
       | String sid0 _ =>
           let* file_props := gets props in
           if is_transfer_paused file_props then
             modify (with_props (FP.set_last_time now)) ;;;
             modify (with_props (FP.set_paused false)) ;;;
             let* status := match types !! String sid0 EmptyString with
                            | Some st => ret st
                            | None => raise KeyError
                            end in
             set_status status ;;;
             log_ui (TogglePauseContinue true) ;;;
             let* file_props := gets props in
             when (FP.continue_cb file_props) (log_ui ContinueCb)
           else if is_transfer_active file_props then
             modify (with_props (FP.set_paused true)) ;;;
             set_status "pause" ;;;
             modify (with_props (FP.set_transfered_size [])) ;;;
             log_ui (TogglePauseContinue false)
           else ret tt
       end)%py
  end.

End PauseRestore.

(** ** [show_hash_error]: the [on_yes] callback

    The callback runs against the file system and three collaborators:
    the contact list, the [FilesProp] registry and the Jingle module. The
    file system is the set of existing paths; the collaborators are the
    log [calls]. [sid] is the value drawn by
    [helpers.get_random_string_16()]. *)

Record Contact : Type := mkContact {
  contact_jid : string;
  full_jid : string
}.

Inductive Call : Type :=
| GetNewFileProp (account sid : string)
| StartFileTransfer (fjid : string) (file_props : FileProp) (request : bool)
| AddTransfer (account : string) (contact : option Contact) (file_props : FileProp).

Record Desktop : Type := mkDesktop {
  fs : gset string;
  calls : list Call
}.

(** [os.remove(path)] *)
Definition os_remove (path : option string) : M Desktop unit :=
  fun d =>
    match path with
    | None => (d, inl TypeError)
    | Some p =>
        if decide (p ∈ fs d)
        then (mkDesktop (fs d ∖ {[ p ]}) (calls d), inr tt)
        else (d, inl FileNotFoundError)
    end.

Definition call (c : Call) : M Desktop unit :=
  modify (fun d => mkDesktop (fs d) (calls d ++ [c])).

Section HashError.

(** [app.get_room_and_nick_from_fjid], [app.contacts.get_contact],
    [app.contacts.get_contact_with_highest_priority]. *)
Variable get_room_and_nick_from_fjid : string -> string * string.
Variable get_contact : string -> string -> string -> option Contact.
Variable get_contact_with_highest_priority : string -> string -> option Contact.
(** [FileProp(account, sid)], the record [getNewFileProp] registers. *)
Variable new_FileProp : string -> string -> FileProp.
(** The transport session id [start_file_transfer] returns. *)
Variable start_file_transfer : string -> FileProp -> bool -> option string.

Definition on_yes (fjid : string) (file_props : FileProp) (account : string)
    (sid : string) : M Desktop unit :=
  (os_remove (FP.file_name file_props) ;;;
   let (jid, resource) := get_room_and_nick_from_fjid fjid in
   let* cf :=
     if negb (String.eqb resource "") then
       ret (get_contact account jid resource, fjid)
     else
       let contact := get_contact_with_highest_priority account jid in
       let* c := attr_of contact in
       ret (contact, full_jid c) in
   let (contact, fjid) := (cf : option Contact * string) in
   call (GetNewFileProp account sid) ;;;
   let new_file_props := new_FileProp account sid in
   let new_file_props := FP.set_file_name (FP.file_name file_props) new_file_props in
   let new_file_props := FP.set_name (FP.name file_props) new_file_props in
   let new_file_props := FP.set_desc (FP.desc file_props) new_file_props in
   let new_file_props := FP.set_size (FP.size file_props) new_file_props in
   let new_file_props := FP.set_date (FP.date file_props) new_file_props in
   let new_file_props := FP.set_hash_ (FP.hash_ file_props) new_file_props in
   let new_file_props := FP.set_type_ (Some "r") new_file_props in
   call (StartFileTransfer fjid new_file_props true) ;;;
   let tsid := start_file_transfer fjid new_file_props true in
   let new_file_props := FP.set_transport_sid tsid new_file_props in
   call (AddTransfer account contact new_file_props))%py.

End HashError.

End filetransfer.

(* ===================================================================== *)
(** * [nbxmpp.Node]: the XML nodes the content handlers build            *)
(* ===================================================================== *)

Module nbxmpp.

#[local] Unset Elimination Schemes.
Inductive Node : Type :=
  mkNode (name : string) (namespace : option string)
         (attrs : list (string * option string)) (data : list string)
         (kids : list Node).
#[local] Set Elimination Schemes.

Definition getName (n : Node) : string :=
  let 'mkNode name _ _ _ _ := n in name.
Definition getNamespace (n : Node) : option string :=
  let 'mkNode _ ns _ _ _ := n in ns.
Definition getAttrs (n : Node) : list (string * option string) :=
  let 'mkNode _ _ attrs _ _ := n in attrs.
Definition getData (n : Node) : list string :=
  let 'mkNode _ _ _ data _ := n in data.
Definition getChildren (n : Node) : list Node :=
  let 'mkNode _ _ _ _ kids := n in kids.

(** [Node(tag=name)] and [Node(tag=ns + ' ' + name)] *)
Definition new_node (name : string) : Node := mkNode name None [] [] [].
Definition new_node_ns (ns name : string) : Node := mkNode name (Some ns) [] [] [].

(** [parent.addChild(node=child)]: the child goes last. *)
Definition addChild (child parent : Node) : Node :=
  let 'mkNode name ns attrs data kids := parent in
  mkNode name ns attrs data (kids ++ [child]).

(** [addChild] of each node of a list in turn. *)
Definition addChildren (children : list Node) (parent : Node) : Node :=
  List.fold_left (fun acc k => addChild k acc) children parent.

(** [node.addData(d)] and [node.setData(d)] *)
Definition addData (d : string) (n : Node) : Node :=
  let 'mkNode name ns attrs data kids := n in
  mkNode name ns attrs (data ++ [d]) kids.
Definition setData (d : string) (n : Node) : Node :=
  let 'mkNode name ns attrs _ kids := n in
  mkNode name ns attrs [d] kids.

(** [node.setAttr(key, val)] on a node that has no such attribute yet. *)
Definition setAttr (key : string) (val : option string) (n : Node) : Node :=
  let 'mkNode name ns attrs data kids := n in
  mkNode name ns (attrs ++ [(key, val)]) data kids.

(** [node.getTag(name)]: the first child of that name, or [None]. *)
Definition getTag (name : string) (n : Node) : option Node :=
  List.find (fun k => String.eqb (getName k) name) (getChildren n).

(** [t = node.setTag(name)] followed by in-place updates [f] of [t]:
    the first child of that name is updated where it stands; when there
    is none, a new child is appended and updated. *)
Fixpoint update_first (name : string) (f : Node -> Node) (kids : list Node)
    : option (list Node) :=
  match kids with
  | [] => None
  | k :: rest =>
      if String.eqb (getName k) name then Some (f k :: rest)
      else option_map (cons k) (update_first name f rest)
  end.

Definition setTag_with (name : string) (f : Node -> Node) (n : Node) : Node :=
  let 'mkNode nm ns attrs data kids := n in
  match update_first name f kids with
  | Some kids' => mkNode nm ns attrs data kids'
  | None => mkNode nm ns attrs data (kids ++ [f (new_node name)])
  end.

(** The namespaces of [nbxmpp.namespaces.Namespace] used here. *)
Definition JINGLE_FILE_TRANSFER_5 : string := "urn:xmpp:jingle:apps:file-transfer:5".
Definition HASHES_2 : string := "urn:xmpp:hashes:2".
Definition JINGLE_XTLS : string := "urn:xmpp:jingle:security:xtls:0".

End nbxmpp.

Abbreviation Node := nbxmpp.Node.

(** [s.split(sep)[0]] *)
Fixpoint split_head (sep s : string) : string :=
  match s with
  | EmptyString => EmptyString
  | String c s' =>
      if String.prefix sep s then EmptyString else String c (split_head sep s')
  end.

(* ===================================================================== *)
(** * [gajim/common/jingle_content.py]: class [JingleContent]            *)
(* ===================================================================== *)

Module jingle_content.

Module FP := file_props.

(** ** Collaborators *)

(** A transport candidate is a dictionary. *)
Definition Candidate : Type := list (string * string).

(** The attributes of a [JingleTransport] as far as the content touches
    them: the remote candidates it assigns, and the local candidates the
    transport keeps for itself. *)
Record JingleTransport : Type := mkTransport {
  remote_candidates : list Candidate;
  candidates : list Candidate
}.

Definition set_remote_candidates (cs : list Candidate) (t : JingleTransport)
    : JingleTransport :=
  mkTransport cs (candidates t).

(** The dictionary handed to [set_file_info]. *)
Record FileInfo : Type := mkFileInfo {
  fi_name : option string;
  fi_file_name : option string;
  fi_hash : option string;
  fi_size : Z;
  fi_date : option string;
  fi_peerjid : string
}.

(** Calls a content makes on its session, in order. *)
Inductive SessionCall : Type :=
| content_negotiated (media : option string)
| send_transport_info (content : Node)
| send_description_info_call (content : Node)
| set_file_info (file_info : FileInfo).

(** The owning [JingleSession]: the [contents] dictionary, keyed by
    [(creator, name)] and holding a handle of each content, the peer, and
    the calls received. *)
Record JingleSession : Type := mkSession {
  contents : gmap (option string * option string) nat;
  peerjid : string;
  session_calls : list SessionCall
}.

Record Certificate : Type := mkCertificate {
  get_signature_algorithm : string;
  digest : string -> string
}.

(** ** The content object *)

(** The bound methods stored in [self.callbacks]. *)
Inductive Callback : Type :=
| cb_on_transport_info
| cb_on_content_accept
| cb_on_transport_replace
| cb_fill_jingle_stanza.

#[export] Instance Callback_eq_dec : EqDecision Callback.
Proof. solve_decision. Defined.

Record JingleContent : Type := mkContent {
  transport : option JingleTransport;
  creator : option string;
  name : option string;
  accepted : bool;
  sent : bool;
  negotiated : bool;
  media : option string;
  senders : option string;
  allow_sending : bool;
  file_props : option FileProp;
  use_security : option bool;
  callbacks : option (gmap string (list Callback))
}.

Definition set_transport (v : option JingleTransport) (c : JingleContent) :=
  mkContent v (creator c) (name c) (accepted c) (sent c) (negotiated c)
    (media c) (senders c) (allow_sending c) (file_props c) (use_security c)
    (callbacks c).
Definition set_accepted (v : bool) (c : JingleContent) :=
  mkContent (transport c) (creator c) (name c) v (sent c) (negotiated c)
    (media c) (senders c) (allow_sending c) (file_props c) (use_security c)
    (callbacks c).
Definition set_sent (v : bool) (c : JingleContent) :=
  mkContent (transport c) (creator c) (name c) (accepted c) v (negotiated c)
    (media c) (senders c) (allow_sending c) (file_props c) (use_security c)
    (callbacks c).
Definition set_negotiated (v : bool) (c : JingleContent) :=
  mkContent (transport c) (creator c) (name c) (accepted c) (sent c) v
    (media c) (senders c) (allow_sending c) (file_props c) (use_security c)
    (callbacks c).
Definition set_file_props (v : option FileProp) (c : JingleContent) :=
  mkContent (transport c) (creator c) (name c) (accepted c) (sent c)
    (negotiated c) (media c) (senders c) (allow_sending c) v (use_security c)
    (callbacks c).
Definition set_callbacks (v : option (gmap string (list Callback)))
    (c : JingleContent) :=
  mkContent (transport c) (creator c) (name c) (accepted c) (sent c)
    (negotiated c) (media c) (senders c) (allow_sending c) (file_props c)
    (use_security c) v.

(** The table built by [__init__]. *)
Definition default_callbacks : gmap string (list Callback) :=
  list_to_map
    [ ("content-accept", [cb_on_transport_info; cb_on_content_accept]);
      ("content-add", [cb_on_transport_info]);
      ("content-modify", []);
      ("content-reject", []);
      ("content-remove", []);
      ("description-info", []);
      ("security-info", []);
      ("session-accept", [cb_on_transport_info; cb_on_content_accept]);
      ("session-info", []);
      ("session-initiate", [cb_on_transport_info]);
      ("session-terminate", []);
      ("transport-info", [cb_on_transport_info]);
      ("transport-replace", [cb_on_transport_replace]);
      ("transport-accept", [cb_on_transport_replace]);
      ("transport-reject", []);
      ("iq-result", []);
      ("iq-error", []);
      ("content-accept-sent", [cb_fill_jingle_stanza; cb_on_content_accept]);
      ("content-add-sent", [cb_fill_jingle_stanza]);
      ("session-initiate-sent", [cb_fill_jingle_stanza]);
      ("session-accept-sent", [cb_fill_jingle_stanza; cb_on_content_accept]);
      ("session-terminate-sent", []) ].

(** [JingleContent.__init__(session, transport, senders)] *)
Definition __init__ (transport : option JingleTransport)
    (senders : option string) : JingleContent :=
  mkContent transport None None false false false None
    (match senders with None => Some "both" | Some s => Some s end)
    true None None (Some default_callbacks).

(** The objects a method of the content works on: the content itself and
    its session. *)
Record World : Type := mkWorld {
  self : JingleContent;
  session : JingleSession
}.

(** During a callback the [content] node passed by the caller is a third
    object, updated in place. *)
Record Frame : Type := mkFrame {
  world : World;
  content : option Node
}.

Definition on_self (f : JingleContent -> JingleContent) (w : World) : World :=
  mkWorld (f (self w)) (session w).

Definition session_call (c : SessionCall) (w : World) : World :=
  mkWorld (self w)
    (mkSession (contents (session w)) (peerjid (session w))
               (session_calls (session w) ++ [c])).

Definition in_world (f : World -> World) (fr : Frame) : Frame :=
  mkFrame (f (world fr)) (content fr).

Definition lift_w {A} (m : M World A) : M Frame A :=
  fun fr => let (w', r) := m (world fr) in (mkFrame w' (content fr), r).

Definition set_content (c : Node) : M Frame unit :=
  modify (fun fr => mkFrame (world fr) (Some c)).

(** ** The methods *)

Section Methods.

(** [JingleTransport.make_transport(candidates=None, add_candidates=True)]
    and [JingleTransport.parse_transport_stanza(node)]: both may update
    the transport and may raise. *)
Variable make_transport :
  JingleTransport -> option (list Candidate) -> bool -> JingleTransport * Res Node.
Variable parse_transport_stanza :
  JingleTransport -> option Node -> JingleTransport * Res (list Candidate).
(** [self._compute_hash()], supplied by the file-transfer subclass: it may
    store the digest in the record and returns the hash element or [None]. *)
Variable _compute_hash : FileProp -> FileProp * option Node.
(** [app.get_jid_without_resource], [load_cert_file],
    [configpaths.get('MY_CERT')] and [SELF_SIGNED_CERTIFICATE]. *)
Variable get_jid_without_resource : string -> string.
Variable load_cert_file : string -> option Certificate.
Variable MY_CERT : string.
Variable SELF_SIGNED_CERTIFICATE : string.

(** [self.transport.m(...)] for a transport method [m]. *)
Definition transport_call {A} (m : JingleTransport -> JingleTransport * Res A)
    : M World A :=
  fun w =>
    match transport (self w) with
    | None => (w, inl AttributeError)
    | Some t =>
        let (t', r) := m t in (on_self (set_transport (Some t')) w, r)
    end.

Definition is_ready (c : JingleContent) : bool :=
  accepted c && negb (sent c).

Definition on_negotiated : M World unit :=
  (let* c := gets self in
   if accepted c then
     modify (on_self (set_negotiated true)) ;;;
     let* c := gets self in
     modify (session_call (content_negotiated (media c)))
   else ret tt)%py.

Definition __on_content_accept (stanza : Node) (error : option Node)
    (action : string) : M Frame unit :=
  lift_w on_negotiated.

Definition add_remote_candidates (cands : list Candidate) : M World unit :=
  transport_call (fun t => (set_remote_candidates cands t, inr tt)).

Definition __on_transport_replace (stanza : Node) (error : option Node)
    (action : string) : M Frame unit :=
  (let* c := bind (gets content) attr_of in
   let* tp := lift_w (transport_call (fun t => make_transport t None true)) in
   set_content (nbxmpp.addChild tp c))%py.

Definition __on_transport_info (stanza : Node) (error : option Node)
    (action : string) : M Frame unit :=
  (let* _ := bind (gets (fun fr => transport (self (world fr)))) attr_of in
   let* c := bind (gets content) attr_of in
   let* cands := lift_w (transport_call
                   (fun t => parse_transport_stanza t (nbxmpp.getTag "transport" c))) in
   match cands with
   | [] => ret tt
   | _ :: _ => lift_w (add_remote_candidates cands)
   end)%py.

(** [self.__content()] *)
Definition __content (c : JingleContent) : Node :=
  nbxmpp.mkNode "content" None
    [("name", name c); ("creator", creator c); ("senders", senders c)] [] [].

(** The [name], [date] and [size] children of the [file] element. *)
Definition file_tag_basics (fp : FileProp) : list Node :=
  (if truthy (FP.name fp)
   then [nbxmpp.addData (default "" (FP.name fp)) (nbxmpp.new_node "name")]
   else [])
  ++ (if truthy (FP.date fp)
      then [nbxmpp.addData (default "" (FP.date fp)) (nbxmpp.new_node "date")]
      else [])
  ++ (if FP.size fp =? 0 then []
      else [nbxmpp.addData (pretty (FP.size fp)) (nbxmpp.new_node "size")]).

(** [file_tag.addChild('hash', attrs={'algo': algo}, namespace=HASHES_2,
    payload=hash_)] *)
Definition hash_node (fp : FileProp) : Node :=
  nbxmpp.mkNode "hash" (Some nbxmpp.HASHES_2) [("algo", FP.algo fp)]
    [default "" (FP.hash_ fp)] [].

(** The [security] element for a certificate. *)
Definition security_node (cert : Certificate) : Node :=
  let digest_algo := split_head "With" (get_signature_algorithm cert) in
  let fingerprint :=
    nbxmpp.addData (digest cert digest_algo) (nbxmpp.new_node "fingerprint") in
  let methods :=
    List.map (fun m => nbxmpp.setAttr "name" (Some m) (nbxmpp.new_node "method"))
             ["x509"] in
  nbxmpp.mkNode "security" (Some nbxmpp.JINGLE_XTLS) [] []
    (fingerprint :: methods).

(** The [file] element once its children [kids] are in place:
    [desc = file_tag.setTag('desc')], then [desc.setData(...)] when the
    record has a description. *)
Definition file_element (kids : list Node) (fp : FileProp) : Node :=
  nbxmpp.setTag_with "desc"
    (fun d => if truthy (FP.desc fp)
              then nbxmpp.setData (default "" (FP.desc fp)) d else d)
    (nbxmpp.mkNode "file" None [] [] kids).

(** The [description] element around a [file] element. *)
Definition description_element (file_tag : Node) : Node :=
  nbxmpp.addChild file_tag
    (nbxmpp.new_node_ns nbxmpp.JINGLE_FILE_TRANSFER_5 "description").

Definition certpath : string :=
  MY_CERT ++ "/" ++ SELF_SIGNED_CERTIFICATE ++ ".cert".

(** [_fill_content]: [kids] are the children of the [file] element in the
    order they are added. *)
Definition _fill_content : M Frame unit :=
  (let* fp := bind (gets (fun fr => file_props (self (world fr)))) attr_of in
   let kids := file_tag_basics fp in
   let* kids :=
     if is_str (FP.type_ fp) "r" then
       ret (if truthy (FP.hash_ fp) then (kids ++ [hash_node fp])%list else kids)
     else if (FP.size fp <? 10000000) && negb (truthy (FP.hash_ fp)) then
       let (fp', hash_data) := _compute_hash fp in
       modify (in_world (on_self (set_file_props (Some fp')))) ;;;
       let kids := match hash_data with
                   | Some h => (kids ++ [h])%list
                   | None => kids
                   end in
       let* peer := gets (fun fr => peerjid (session (world fr))) in
       let pjid := get_jid_without_resource peer in
       let file_info := mkFileInfo (FP.name fp') (FP.file_name fp')
                          (FP.hash_ fp') (FP.size fp') (FP.date fp') pjid in
       modify (in_world (session_call (set_file_info file_info))) ;;;
       ret kids
     else ret kids in
   let* fp := bind (gets (fun fr => file_props (self (world fr)))) attr_of in
   let description_node := description_element (file_element kids fp) in
   let* use_sec := gets (fun fr => use_security (self (world fr))) in
   (match use_sec with
    | Some true =>
        match load_cert_file certpath with
        | Some cert =>
            let* c := bind (gets content) attr_of in
            set_content (nbxmpp.addChild (security_node cert) c)
        | None => ret tt
        end
    | _ => ret tt
    end) ;;;
   let* c := bind (gets content) attr_of in
   set_content (nbxmpp.addChild description_node c))%py.

Definition __fill_jingle_stanza (stanza : Node) (error : option Node)
    (action : string) : M Frame unit :=
  (_fill_content ;;;
   modify (in_world (on_self (set_sent true))) ;;;
   let* c := bind (gets content) attr_of in
   let* tp := lift_w (transport_call (fun t => make_transport t None true)) in
   set_content (nbxmpp.addChild tp c))%py.

Definition run_callback (cb : Callback) (stanza : Node) (error : option Node)
    (action : string) : M Frame unit :=
  match cb with
  | cb_on_transport_info => __on_transport_info stanza error action
  | cb_on_content_accept => __on_content_accept stanza error action
  | cb_on_transport_replace => __on_transport_replace stanza error action
  | cb_fill_jingle_stanza => __fill_jingle_stanza stanza error action
  end.

(** [on_stanza(stanza, content, error, action)], the [content] argument
    being the node of the frame. *)
Definition on_stanza (stanza : Node) (error : option Node) (action : string)
    : M Frame unit :=
  (let* cbs := gets (fun fr => callbacks (self (world fr))) in
   match cbs with
   | None => raise TypeError
   | Some table =>
       match table !! action with
       | Some handlers =>
           for_each handlers (fun cb => run_callback cb stanza error action)
       | None => ret tt
       end
   end)%py.

(** A method that builds its own [content] node runs its body in a frame
    around that node and gets the node back. *)
Definition with_content (c : Node) (body : M Frame unit) : M World (option Node) :=
  fun w =>
    let (fr, r) := body (mkFrame w (Some c)) in
    (world fr, match r with
               | inl e => inl e
               | inr _ => inr (content fr)
               end).

Definition send_candidate (candidate : Candidate) : M World unit :=
  (let* c := gets (fun w => __content (self w)) in
   let* tp := transport_call (fun t => make_transport t (Some [candidate]) true) in
   modify (session_call (send_transport_info (nbxmpp.addChild tp c))))%py.

Definition send_error_candidate : M World unit :=
  (let* c := gets (fun w => __content (self w)) in
   let* tp := transport_call (fun t => make_transport t None false) in
   let tp := nbxmpp.addChild (nbxmpp.new_node "candidate-error") tp in
   modify (session_call (send_transport_info (nbxmpp.addChild tp c))))%py.

Definition send_description_info : M World unit :=
  (let* c := gets (fun w => __content (self w)) in
   let* c' := with_content c _fill_content in
   match c' with
   | Some n => modify (session_call (send_description_info_call n))
   | None => ret tt
   end)%py.

Definition destroy : M World unit :=
  (modify (on_self (set_callbacks None)) ;;;
   fun w =>
     let key := (creator (self w), name (self w)) in
     match contents (session w) !! key with
     | None => (w, inl KeyError)
     | Some _ =>
         (mkWorld (self w)
            (mkSession (delete key (contents (session w)))
                       (peerjid (session w)) (session_calls (session w))),
          inr tt)
     end)%py.

(** ** Calls on a content

    The public methods, plus the assignment [content.accepted = True] that
    the owning session makes when the content is accepted. *)
Inductive Op : Type :=
| call_on_stanza (stanza : Node) (content : option Node) (error : option Node)
                 (action : string)
| call_on_negotiated
| call_add_remote_candidates (cands : list Candidate)
| call_send_candidate (candidate : Candidate)
| call_send_error_candidate
| call_send_description_info
| call_destroy
| assign_accepted.

(** [on_stanza] seen from the caller: the world afterwards, the [content]
    node afterwards, and the outcome. *)
Definition dispatch (stanza : Node) (content : option Node)
    (error : option Node) (action : string) (w : World) : Frame * Res unit :=
  on_stanza stanza error action (mkFrame w content).

Definition exec (op : Op) (w : World) : World * Res unit :=
  match op with
  | call_on_stanza stanza content error action =>
      let (fr, r) := dispatch stanza content error action w in (world fr, r)
  | call_on_negotiated => on_negotiated w
  | call_add_remote_candidates cands => add_remote_candidates cands w
  | call_send_candidate candidate => send_candidate candidate w
  | call_send_error_candidate => send_error_candidate w
  | call_send_description_info => send_description_info w
  | call_destroy => destroy w
  | assign_accepted => (on_self (set_accepted true) w, inr tt)
  end.

(** A sequence of calls; a call that raises leaves its partial effects and
    the caller goes on with the next one. *)
Fixpoint run (ops : list Op) (w : World) : World :=
  match ops with
  | [] => w
  | op :: rest => run rest (fst (exec op w))
  end.

End Methods.

(** ** How a call may change the content

    [evolves fill w w']: from [w] to [w'] the identity and the [accepted]
    flag and the callbacks table are unchanged, [negotiated] can only have
    been set under [accepted], and [sent] can only have been set when
    [fill] allows it. *)
Definition evolves (fill : bool) (w w' : World) : Prop :=
  creator (self w') = creator (self w)
  /\ name (self w') = name (self w)
  /\ accepted (self w') = accepted (self w)
  /\ callbacks (self w') = callbacks (self w)
  /\ (negotiated (self w') = negotiated (self w)
      \/ (accepted (self w) = true /\ negotiated (self w') = true))
  /\ (sent (self w') = sent (self w)
      \/ (fill = true /\ sent (self w') = true)).

(** The actions whose callbacks fill the outbound stanza. *)
Definition fill_actions : list string :=
  [ "content-accept-sent"; "content-add-sent"; "session-initiate-sent";
    "session-accept-sent" ].

(** Whether a call dispatches to a callback list that contains the
    fill-stanza callback, given the table the content holds. *)
Definition runs_fill (op : Op) (w : World) : bool :=
  match op with
  | call_on_stanza _ _ _ action =>
      match callbacks (self w) with
      | Some table =>
          match table !! action with
          | Some handlers => bool_decide (cb_fill_jingle_stanza ∈ handlers)
          | None => false
          end
      | None => false
      end
  | _ => false
  end.

End jingle_content.

(* ===================================================================== *)
(** * The design document's wording, for comparison                      *)
(* ===================================================================== *)

Module design.

Module FP := file_props.

(** The estimate as the document words it: below two samples the speed is
    [transferred / elapsed_time], from two samples on it is the slope
    between the first and the last retained sample; a zero speed gives
    [(0, 0)], otherwise the ETA is [(size - transferred) / speed]. *)
Definition eta_and_speed (full_size transfered_size : Z) (fp : FileProp) : Q * Q :=
  let samples := FP.transfered_size fp in
  let speed :=
    if (length samples <? 2)%nat
    then (inject_Z transfered_size / FP.elapsed_time fp)%Q
    else
      let first := List.hd (0%Q, 0) samples in
      let last := List.last samples (0%Q, 0) in
      (inject_Z (snd last - snd first) / (fst last - fst first))%Q in
  if Qeq_bool speed 0 then (0%Q, 0%Q)
  else ((inject_Z (full_size - transfered_size) / speed)%Q, speed).

(** The accept handler as the document words it: it acts only when
    [negotiated] is not yet true and [accepted] is true. *)
Definition on_negotiated : M jingle_content.World unit :=
  (let* c := gets jingle_content.self in
   if negb (jingle_content.negotiated c) && jingle_content.accepted c then
     modify (jingle_content.on_self (jingle_content.set_negotiated true)) ;;;
     modify (jingle_content.session_call
               (jingle_content.content_negotiated (jingle_content.media c)))
   else ret tt)%py.

(** Position of the first element of a given name among children. *)
Fixpoint index_of (name : string) (kids : list Node) : option nat :=
  match kids with
  | [] => None
  | k :: rest =>
      if String.eqb (nbxmpp.getName k) name then Some 0%nat
      else option_map S (index_of name rest)
  end.

(** The order of children as the document words it: description, then
    security, then transport. *)
Definition description_security_transport (kids : list Node) : bool :=
  match index_of "description" kids, index_of "security" kids,
        index_of "transport" kids with
  | Some d, Some s, Some t => (d <? s)%nat && (s <? t)%nat
  | _, _, _ => false
  end.

End design.

(* ===================================================================== *)
(** * Sample data                                                        *)
(* ===================================================================== *)

Module sample.

Module FP := file_props.
Import filetransfer.

(** A receive of a 1000-byte file, started and connected, with no sample
    retained yet. *)
Definition record : FileProp :=
  FP.mkFileProp "alice@example.org" "sid1" (Some "r")
    (Some "notes.txt") (Some "/home/alice/notes.txt") (Some "2021-03-01T10:00:00Z")
    (Some "lecture notes") 1000 (Some "9b2ac3f0") (Some "sha-256")
    None (Some "jingle") None (Some 0) (Some "alice@example.org")
    2%Q 0%Q [] true false false true false false false.

(** The same transfer, paused and with the connection lost. *)
Definition record_offline_paused : FileProp :=
  FP.mkFileProp "alice@example.org" "sid1" (Some "r")
    (Some "notes.txt") (Some "/home/alice/notes.txt") (Some "2021-03-01T10:00:00Z")
    (Some "lecture notes") 1000 (Some "9b2ac3f0") (Some "sha-256")
    None (Some "jingle") None (Some 0) (Some "alice@example.org")
    2%Q 0%Q [] true true false false false false false.

(** The three samples of the design document. *)
Definition three_samples : list (Q * Z) := [(0%Q, 0); (1%Q, 100); (2%Q, 300)].

Definition row : Row := mkRow "go-down" (0%Q, 0) 0 (-1) "rsid1".

Definition window : Window := mkWindow record [row] [].

(** [is_transfer_paused] and [is_transfer_active] for a record that is
    neither stopped nor completed. *)
Definition is_transfer_paused (fp : FileProp) : bool :=
  negb (FP.stopped fp) && negb (FP.completed fp) && FP.paused fp.
Definition is_transfer_active (fp : FileProp) : bool :=
  negb (FP.stopped fp) && negb (FP.completed fp) && FP.started fp.

(** The same record with the three samples retained, and with two samples
    whose slope is not an integer. *)
Definition record3 : FileProp := FP.set_transfered_size three_samples record.
Definition record_third : FileProp :=
  FP.set_transfered_size [(0%Q, 0); (3%Q, 100)] record.

(** A desktop on which the received file exists, and collaborators for
    the recovery: the peer's full JID carries a resource and resolves to a
    contact; a new record starts out empty. *)
Definition desktop : Desktop :=
  mkDesktop {[ "/home/alice/notes.txt"; "/home/alice/other.txt" ]} [].

Definition get_room_and_nick_from_fjid (fjid : string) : string * string :=
  ("bob@example.org", "laptop").
Definition get_contact (account jid resource : string) : option Contact :=
  Some (mkContact jid (jid ++ "/" ++ resource)).
Definition get_contact_with_highest_priority (account jid : string)
    : option Contact := None.
Definition new_FileProp (account sid : string) : FileProp :=
  FP.mkFileProp account sid None None None None None 0 None None None None
    None None None 0%Q 0%Q [] false false false false false false false.
Definition start_file_transfer (fjid : string) (fp : FileProp) (request : bool)
    : option string := Some "tsid1".

(** The window with the three samples retained on its record. *)
Definition window3 : Window := mkWindow record3 [row] [].

End sample.

Module sample_content.

Module FP := file_props.
Import jingle_content.

(** Collaborators: a SOCKS5 transport whose payload is a bare
    [transport] element and whose parser reads one candidate per child;
    a digest routine that stores and returns a fixed digest; a certificate
    signed with SHA-256. *)
Definition make_transport (t : JingleTransport) (cands : option (list Candidate))
    (add_candidates : bool) : JingleTransport * Res Node :=
  (t, inr (nbxmpp.new_node_ns "urn:xmpp:jingle:transports:s5b:1" "transport")).

Definition parse_transport_stanza (t : JingleTransport) (n : option Node)
    : JingleTransport * Res (list Candidate) :=
  (t, inr (match n with
           | Some tp => List.map (fun k => [("cid", nbxmpp.getName k)])
                                 (nbxmpp.getChildren tp)
           | None => []
           end)).

Definition hash_element : Node :=
  nbxmpp.mkNode "hash" (Some nbxmpp.HASHES_2) [("algo", Some "sha-256")]
    ["3a7bd3e2360a3d29eea436fcfb7e44c7"] [].

Definition _compute_hash (fp : FileProp) : FileProp * option Node :=
  (FP.set_hash_ (Some "3a7bd3e2360a3d29eea436fcfb7e44c7") fp, Some hash_element).

(** A digest routine that cannot read the file. *)
Definition _compute_hash_unreadable (fp : FileProp) : FileProp * option Node :=
  (fp, None).

Definition get_jid_without_resource (jid : string) : string := split_head "/" jid.

Definition certificate : Certificate :=
  mkCertificate "sha256WithRSAEncryption" (fun algo => algo ++ ":AB:CD:EF").

Definition load_cert_file (path : string) : option Certificate := Some certificate.

Definition MY_CERT : string := "/home/alice/.local/share/gajim/certs".
Definition SELF_SIGNED_CERTIFICATE : string := "localcert".

Definition transport0 : JingleTransport := mkTransport [] [].

Definition session0 : JingleSession :=
  mkSession {[ (Some "initiator", Some "file1") := 1%nat ]}
            "bob@example.org/laptop" [].

(** An 8,000,000-byte and a 12,000,000-byte file to send, no digest known. *)
Definition send_record (size : Z) : FileProp :=
  FP.mkFileProp "alice@example.org" "sid1" (Some "s")
    (Some "video.mkv") (Some "/home/alice/video.mkv") (Some "2021-03-01T10:00:00Z")
    None size None (Some "sha-256")
    None (Some "jingle") None None (Some "alice@example.org")
    0%Q 0%Q [] false false false false false false false.

(** A content added to the session as [(initiator, file1)], with the
    given flags. *)
Definition content_with (accepted negotiated : bool) (use_security : option bool)
    (fp : option FileProp) : JingleContent :=
  mkContent (Some transport0) (Some "initiator") (Some "file1")
    accepted false negotiated (Some "file") (Some "both") true fp use_security
    (Some default_callbacks).

Definition world_with (accepted negotiated : bool) (use_security : option bool)
    (fp : option FileProp) : World :=
  mkWorld (content_with accepted negotiated use_security fp) session0.

(** The content node of an outbound stanza, and an inbound one carrying a
    transport element with one candidate. *)
Definition out_content : Node :=
  nbxmpp.mkNode "content" None
    [("name", Some "file1"); ("creator", Some "initiator"); ("senders", Some "both")]
    [] [].

Definition in_content : Node :=
  nbxmpp.addChild
    (nbxmpp.addChild (nbxmpp.new_node "candidate")
       (nbxmpp.new_node_ns "urn:xmpp:jingle:transports:s5b:1" "transport"))
    out_content.

Definition stanza : Node := nbxmpp.new_node "iq".

End sample_content.

(* ===================================================================== *)
(** * Facts about [filetransfer]                                         *)
(* ===================================================================== *)

Module filetransfer_facts.

Module FP := file_props.
Import filetransfer.

(** ** Rounding *)

(** [py_round] returns an integer at distance at most one half. *)
Lemma py_round_near (q : Q) :
  (inject_Z (py_round q) - (1 # 2) <= q)%Q /\ (q <= inject_Z (py_round q) + (1 # 2))%Q.
Proof.
  destruct q as [n d]. unfold py_round, Qle, Qminus, Qplus, Qopp, inject_Z. cbn.
  pose proof (Z.div_mod n (Z.pos d) ltac:(lia)) as Hdm.
  pose proof (Z.mod_pos_bound n (Z.pos d) ltac:(lia)) as Hb.
  set (fl := n / Z.pos d) in *. set (r := n mod Z.pos d) in *.
  destruct (Z.ltb_spec (2 * r) (Z.pos d));
    [| destruct (Z.ltb_spec (Z.pos d) (2 * r)); [| destruct (Z.even fl)]];
    split; nia.
Qed.

(** An exact quotient is left alone. *)
Lemma py_round_inject (z : Z) : py_round (inject_Z z) = z.
Proof.
  unfold py_round, inject_Z. cbn.
  rewrite Z.div_1_r, Z.mod_1_r. reflexivity.
Qed.

(** ** Evaluating the monad *)

Ltac step_m :=
  unfold bind, ret, raise, gets, modify, when, lift_res, log_ui, model_set,
    model_row, get_iter_by_sid, int_received_len, icon_of, with_props,
    attr_of in *;
  cbn [fst snd props model ui] in *.

(** [Qis_zero] decides equality with zero, and of a difference. *)
Lemma Qis_zero_minus (a b : Q) : Qis_zero (a - b) = true <-> (a == b)%Q.
Proof.
  unfold Qis_zero, Qeq, Qminus, Qplus, Qopp. cbn. rewrite Z.eqb_eq. lia.
Qed.

(** ** What [set_status] leaves alone *)

Lemma set_status_samples (status : string) (w : Window) :
  FP.transfered_size (props (fst (set_status status w)))
  = FP.transfered_size (props w).
Proof.
  unfold set_status. step_m.
  repeat (case_match; step_m; simplify_eq/=; try reflexivity).
Qed.

Lemma set_status_elapsed (status : string) (w : Window) :
  FP.elapsed_time (props (fst (set_status status w)))
  = FP.elapsed_time (props w).
Proof.
  unfold set_status. step_m.
  repeat (case_match; step_m; simplify_eq/=; try reflexivity).
Qed.

(** [set_status] touches two flags of the record at most. *)
Lemma set_status_props (status : string) (w : Window) :
  props (fst (set_status status w)) = props w
  \/ props (fst (set_status status w)) = FP.set_stopped true (props w)
  \/ props (fst (set_status status w)) = FP.set_completed true (props w).
Proof.
  unfold set_status. step_m.
  repeat (case_match; step_m; simplify_eq/=; auto).
Qed.

(** ** The retained window *)

(** One progress update appends at most one sample and then drops the
    oldest one when more than six are held. *)
Lemma set_progress_samples (typ sid : string) (ts : Z) (iter_ : option nat)
    (w : Window) :
  let before := FP.transfered_size (props w) in
  let after := FP.transfered_size (props (fst (set_progress typ sid ts iter_ w))) in
  after = before
  \/ (exists x, after = (before ++ [x])%list /\ (length before < 6)%nat)
  \/ (exists x, after = List.tl (before ++ [x])%list /\ (6 <= length before)%nat)
  \/ (after = List.tl before /\ (6 < length before)%nat).
Proof.
  cbn zeta. unfold set_progress. step_m.
  destruct iter_ as [it|]; step_m.
  2: destruct (iter_by_sid_from 0 (model w) (Some typ) sid) as [e|[it|]];
     step_m; [left; reflexivity| |left; reflexivity].
  all: destruct (model w !! it) as [r|] eqn:Hrow; [|left; reflexivity].
  all: destruct (Qpositive (FP.elapsed_time (props w))) eqn:Hpos; step_m.
  all: match goal with
       | |- context [(6 <? ?n)%nat] => destruct (Nat.ltb_spec 6 n) as [Hlen|Hlen]
       end; step_m; cbn in Hlen; try rewrite length_app in Hlen; cbn in Hlen.
  all: repeat (case_match; step_m; simplify_eq/=;
               try rewrite set_status_samples; cbn).
  all: try (left; reflexivity).
  all: try (right; left; eexists; split; [reflexivity|lia]).
  all: try (right; right; left; eexists; split; [reflexivity|lia]).
  all: try (right; right; right; split; [reflexivity|lia]).
Qed.

Lemma set_progress_window (typ sid : string) (ts : Z) (iter_ : option nat)
    (w : Window) :
  (length (FP.transfered_size (props w)) <= 6)%nat ->
  (length (FP.transfered_size (props (fst (set_progress typ sid ts iter_ w)))) <= 6)%nat.
Proof.
  intros Hlen.
  destruct (set_progress_samples typ sid ts iter_ w)
    as [H|[(x & H & Hl)|[(x & H & Hl)|(H & Hl)]]]; cbn zeta in *; rewrite H.
  - exact Hlen.
  - rewrite length_app. cbn. lia.
  - destruct (FP.transfered_size (props w)); cbn in *; [lia|].
    rewrite length_app. cbn. lia.
  - lia.
Qed.

(** ** The estimate *)




(** ** The status of a progress update *)

(** [set_status] only adds to the log of calls. *)
Lemma set_status_ui (status : string) (w : Window) :
  exists post, ui (fst (set_status status w)) = (ui w ++ post)%list.
Proof.
  unfold set_status. step_m.
  repeat (case_match; step_m; simplify_eq/=);
    try (exists []; rewrite app_nil_r; reflexivity);
    rewrite <- ?app_assoc; eexists; reflexivity.
Qed.

(** Every status a progress update can guess has an icon. *)
Lemma progress_status_icon (fp : FileProp) :
  exists icon, icons !! progress_status fp = Some icon.
Proof.
  unfold progress_status.
  destruct (is_str (FP.type_ fp) "r"), (FP.paused fp), (FP.stalled fp),
    (FP.connected fp); cbn; eexists; vm_compute; reflexivity.
Qed.

Lemma eta_of_speed_snd (full_size ts speed : Z) :
  snd (eta_of_speed full_size ts speed) = speed.
Proof.
  unfold eta_of_speed. destruct (Z.eqb_spec speed 0); cbn; congruence.
Qed.

(** The estimator raises only on one sample with no elapsed time. *)
Lemma eta_and_speed_raises (full_size ts : Z) (fp : FileProp) (e : Exn) :
  _get_eta_and_speed full_size ts fp = inl e ->
  length (FP.transfered_size fp) = 1%nat /\ Qis_zero (FP.elapsed_time fp) = true.
Proof.
  unfold _get_eta_and_speed.
  destruct (FP.transfered_size fp) as [|s0 [|s1 rest]]; [discriminate| |].
  - destruct (Qis_zero (FP.elapsed_time fp)); [auto|discriminate].
  - destruct (Qis_zero _); discriminate.
Qed.

Lemma Qpositive_not_zero (q : Q) : Qpositive q = true -> Qis_zero q = false.
Proof. unfold Qpositive, Qis_zero. destruct (Z.ltb_spec 0 (Qnum q)); [lia|discriminate]. Qed.

Lemma progress_status_samples (l : list (Q * Z)) (fp : FileProp) :
  progress_status (FP.set_transfered_size l fp) = progress_status fp.
Proof. reflexivity. Qed.

(** A progress update on an existing row writes the icon of the guessed
    status into the image column, after the progress, percent and time
    columns and before anything the completion branch adds. *)
Lemma set_progress_image (typ sid : string) (ts : Z) (it : nat) (r : Row)
    (w : Window) :
  model w !! it = Some r ->
  Qis_zero (FP.elapsed_time (props w)) = false
    \/ length (FP.transfered_size (props w)) <> 1%nat ->
  exists icon pre post,
    icons !! progress_status (props w) = Some icon
    /\ ui (fst (set_progress typ sid ts (Some it) w))
       = (ui w ++ pre ++ [ModelSet it IMAGE (CStr icon)] ++ post)%list.
Proof.
  intros Hrow Hok.
  destruct (progress_status_icon (props w)) as [icon Hicon].
  exists icon.
  assert (Hlt : (it < length (model w))%nat) by (eapply lookup_lt_Some; eauto).
  unfold set_progress. step_m. rewrite Hrow.
  destruct (Qpositive (FP.elapsed_time (props w))) eqn:Hpos; step_m.
  all: match goal with
       | |- context [(6 <? ?n)%nat] => destruct (Nat.ltb_spec 6 n) as [Hlen|Hlen]
       end; step_m.
  all: match goal with
       | |- context [_get_eta_and_speed ?a ?b ?c] =>
           destruct (_get_eta_and_speed a b c) as [e|est] eqn:Hest
       end.
  all: try (apply eta_and_speed_raises in Hest; cbn in Hest, Hlen;
            destruct Hest as [Hl Hz]; exfalso;
            first [ apply Qpositive_not_zero in Hpos; congruence
                  | destruct Hok; [congruence|];
                    destruct (FP.transfered_size (props w)) as [|? [|? ?]];
                    cbn in *; (lia || congruence) ]).
  all: rewrite ?Hrow; step_m.
  all: unfold append_sample, pop_first_sample;
    rewrite ?progress_status_samples, ?Hicon; step_m.
  all: repeat (rewrite list_lookup_insert_eq
                 by (rewrite ?length_insert; exact Hlt); step_m).
  all: exists [ModelSet it PROGRESS CText;
               ModelSet it PERCENT (CInt (percent10 (FP.size (props w)) ts `quot` 10));
               ModelSet it TIME (CEst est.1 est.2)].
  all: repeat match goal with
         | |- context [if ?c then _ else _] => destruct c
         end.
  all: try match goal with
         | |- context [set_status ?st ?W] =>
             destruct (set_status_ui st W) as [post Hpost];
             exists post; rewrite Hpost
         end.
  all: try (eexists; split; [reflexivity|]; cbn [ui fst];
            rewrite <- ?app_assoc; cbn; reflexivity).
  all: split; [reflexivity|]; cbn [ui]; rewrite <- ?app_assoc; cbn; reflexivity.
Qed.

(** C5: the status a progress update derives. A transfer that is not
    connected is ['stop'] whatever its paused and stalled flags; otherwise
    a paused one is ['pause']; otherwise a stalled one is ['waiting'];
    otherwise a receive is ['download'] and a send is ['upload']. The icon
    of that status is what [set_progress] writes into the image column of
    the row. (The source spells stopped and paused ['stop'] and
    ['pause'].) *)
Theorem status_priority (fp : FileProp) :
  (FP.connected fp = false -> progress_status fp = "stop")
  /\ (FP.connected fp = true -> FP.paused fp = true ->
      progress_status fp = "pause")
  /\ (FP.connected fp = true -> FP.paused fp = false ->
      FP.stalled fp = true -> progress_status fp = "waiting")
  /\ (FP.connected fp = true -> FP.paused fp = false ->
      FP.stalled fp = false -> FP.type_ fp = Some "r" ->
      progress_status fp = "download")
  /\ (FP.connected fp = true -> FP.paused fp = false ->
      FP.stalled fp = false -> FP.type_ fp = Some "s" ->
      progress_status fp = "upload")
  /\ (forall typ sid ts it r w,
        props w = fp ->
        model w !! it = Some r ->
        Qis_zero (FP.elapsed_time fp) = false
          \/ length (FP.transfered_size fp) <> 1%nat ->
        exists icon pre post,
          icons !! progress_status fp = Some icon
          /\ ui (fst (set_progress typ sid ts (Some it) w))
             = (ui w ++ pre ++ [ModelSet it IMAGE (CStr icon)] ++ post)%list).
Proof.
  unfold progress_status.
  split_and!.
  - intros ->. reflexivity.
  - intros -> ->. reflexivity.
  - intros -> -> ->. reflexivity.
  - intros -> -> -> ->. reflexivity.
  - intros -> -> -> ->. reflexivity.
  - intros typ sid ts it r w <- Hrow Hok.
    apply (set_progress_image typ sid ts it r w Hrow Hok).
Qed.

Lemma status_priority_witness :
  progress_status sample.record_offline_paused = "stop"
  /\ exists icon pre post,
       icons !! progress_status sample.record = Some icon
       /\ ui (fst (set_progress "r" "sid1" 500 (Some 0%nat) sample.window))
          = ([] ++ pre ++ [ModelSet 0 IMAGE (CStr icon)] ++ post)%list.
Proof.
  split.
  - apply (status_priority sample.record_offline_paused). reflexivity.
  - apply (status_priority sample.record) with (r := sample.row).
    + reflexivity.
    + reflexivity.
    + left. reflexivity.
Defined.

(** ** Pause and resume *)

(** The row [get_iter_by_sid] finds is a row of the model, and the search
    does not raise when the type is known. *)
Lemma iter_by_sid_from_found (rows : list Row) (i : nat) (t sid : string) :
  match iter_by_sid_from i rows (Some t) sid with
  | inr (Some it) => (i <= it < i + length rows)%nat
  | inr None => True
  | inl _ => False
  end.
Proof.
  revert i. induction rows as [|r rows IH]; intros i; cbn; [exact I|].
  destruct (String.eqb (t ++ sid) (row_sid r)); [lia|].
  specialize (IH (S i)).
  destruct (iter_by_sid_from (S i) rows (Some t) sid) as [e|[it|]]; [exact IH|lia|exact I].
Qed.

(** Comparisons of literal status names and icon lookups are evaluated. *)
Ltac eval_status st :=
  repeat match goal with
    | |- context [String.eqb st ?b] =>
        let v := eval vm_compute in (String.eqb st b) in
        change (String.eqb st b) with v
    end;
  try (let v := eval vm_compute in (icons !! st) in
       change (icons !! st) with v);
  cbv iota.

(** With a known type, marking a transfer paused cannot raise. *)
Lemma set_status_pause_ok (t : string) (w : Window) :
  FP.type_ (props w) = Some t -> snd (set_status "pause" w) = inr tt.
Proof.
  intros Ht. unfold set_status. step_m. rewrite Ht.
  pose proof (iter_by_sid_from_found (model w) 0 t (FP.sid (props w))) as Hf.
  destruct (iter_by_sid_from 0 (model w) (Some t) (FP.sid (props w)))
    as [e|[it|]]; [destruct Hf| |reflexivity].
  step_m. eval_status "pause". step_m.
  destruct (lookup_lt_is_Some_2 (model w) it ltac:(lia)) as [r Hr].
  rewrite Hr. reflexivity.
Qed.

Section PauseFacts.

Variable is_transfer_paused : FileProp -> bool.
Variable is_transfer_active : FileProp -> bool.

Local Abbreviation click :=
  (on_pause_restore_button_clicked is_transfer_paused is_transfer_active).

(** A click never adds a sample. *)
Lemma click_samples (now : Q) (sel : option nat) (w : Window) :
  FP.transfered_size (props (fst (click now sel w))) = []
  \/ FP.transfered_size (props (fst (click now sel w)))
     = FP.transfered_size (props w).
Proof.
  unfold click, on_pause_restore_button_clicked.
  destruct sel as [i|]; [|right; reflexivity].
  step_m. destruct (model w !! i) as [r|]; [|right; reflexivity].
  destruct (row_sid r) as [|c rest]; [right; reflexivity|].
  step_m.
  destruct (is_transfer_paused (props w)).
  - step_m. right.
    destruct (types !! String c "") as [st|]; step_m; [|reflexivity].
    match goal with
    | |- context [set_status st ?W] =>
        pose proof (set_status_samples st W) as Hs;
        destruct (set_status st W) as [W' [e|[]]]
    end; cbn in *; [exact Hs|].
    destruct (FP.continue_cb (props W')); cbn; exact Hs.
  - destruct (is_transfer_active (props w)); [|right; reflexivity].
    step_m.
    match goal with
    | |- context [set_status "pause" ?W] =>
        pose proof (set_status_samples "pause" W) as Hs;
        destruct (set_status "pause" W) as [W' [e|[]]]
    end; cbn in *; [right; exact Hs|left; reflexivity].
Qed.

(** Pausing an active transfer: the click returns, the record is paused
    and no sample is retained. *)
Lemma click_pause (now : Q) (i : nat) (row : Row) (t : string) (w : Window) :
  model w !! i = Some row ->
  row_sid row <> "" ->
  FP.type_ (props w) = Some t ->
  is_transfer_paused (props w) = false ->
  is_transfer_active (props w) = true ->
  snd (click now (Some i) w) = inr tt
  /\ FP.paused (props (fst (click now (Some i) w))) = true
  /\ FP.transfered_size (props (fst (click now (Some i) w))) = [].
Proof.
  intros Hrow Hsid Ht Hp Ha.
  unfold click, on_pause_restore_button_clicked. step_m. rewrite Hrow.
  destruct (row_sid row) as [|c rest]; [congruence|].
  step_m. rewrite Hp, Ha. step_m.
  match goal with
  | |- context [set_status "pause" ?W] =>
      pose proof (set_status_pause_ok t W Ht) as Hok;
      pose proof (set_status_props "pause" W) as Hprops;
      destruct (set_status "pause" W) as [W' [e|[]]]
  end; cbn in Hok, Hprops |- *; [discriminate|].
  split_and!; try reflexivity.
  destruct Hprops as [->|[->| ->]]; reflexivity.
Qed.

(** Resuming a paused transfer stamps the record with the current time
    and clears the paused flag, whatever happens afterwards. *)
Lemma click_resume (now : Q) (i : nat) (row : Row) (w : Window) :
  model w !! i = Some row ->
  row_sid row <> "" ->
  is_transfer_paused (props w) = true ->
  FP.last_time (props (fst (click now (Some i) w))) = now
  /\ FP.paused (props (fst (click now (Some i) w))) = false.
Proof.
  intros Hrow Hsid Hp.
  unfold click, on_pause_restore_button_clicked. step_m. rewrite Hrow.
  destruct (row_sid row) as [|c rest]; [congruence|].
  step_m. rewrite Hp. step_m.
  destruct (types !! String c "") as [st|]; step_m; [|split; reflexivity].
  match goal with
  | |- context [set_status st ?W] =>
      pose proof (set_status_props st W) as Hprops;
      destruct (set_status st W) as [W' [e|[]]]
  end; cbn in Hprops |- *.
  - destruct Hprops as [->|[->| ->]]; split; reflexivity.
  - destruct (FP.continue_cb (props W')); cbn;
      destruct Hprops as [->|[->| ->]]; split; reflexivity.
Qed.

End PauseFacts.

(** The first progress update on a record without samples: the one sample
    it appends is all that is retained, and the speed written to the time
    column is the single-sample estimate. *)
Lemma set_progress_cold (typ sid : string) (ts : Z) (it : nat) (r : Row)
    (w : Window) :
  FP.transfered_size (props w) = [] ->
  model w !! it = Some r ->
  Qpositive (FP.elapsed_time (props w)) = true ->
  let ts' := ts - offset_or_zero (props w) in
  let w' := fst (set_progress typ sid ts (Some it) w) in
  FP.transfered_size (props w') = [(FP.last_time (props w), ts')]
  /\ exists eta,
       In (ModelSet it TIME
             (CEst eta (py_round (inject_Z ts' / FP.elapsed_time (props w)))))
          (ui w').
Proof.
  intros Hs Hrow Hpos. cbn zeta.
  assert (Hlt : (it < length (model w))%nat) by (eapply lookup_lt_Some; eauto).
  remember (fst (set_progress typ sid ts (Some it) w)) as w' eqn:Hw'.
  unfold set_progress in Hw'. step_m. rewrite Hrow, Hpos in Hw'. step_m.
  unfold append_sample in Hw'. rewrite Hs in Hw'.
  cbn [app length FP.transfered_size FP.set_transfered_size] in Hw'.
  change (6 <? 1)%nat with false in Hw'. step_m.
  unfold _get_eta_and_speed in Hw'.
  cbn [app length FP.transfered_size FP.set_transfered_size FP.elapsed_time] in Hw'.
  rewrite (Qpositive_not_zero _ Hpos) in Hw'. step_m.
  rewrite ?Hrow in Hw'; step_m.
  repeat (rewrite list_lookup_insert_eq in Hw'
            by (rewrite ?length_insert; exact Hlt); step_m).
  rewrite progress_status_samples in Hw'.
  destruct (progress_status_icon (props w)) as [icon Hicon].
  rewrite Hicon in Hw'. step_m.
  repeat (rewrite list_lookup_insert_eq in Hw'
            by (rewrite ?length_insert; exact Hlt); step_m).
  rewrite eta_of_speed_snd in Hw'.
  set (eta := fst (eta_of_speed _ _ _)) in *.
  set (speed := py_round _) in *.
  assert (Hin : forall post,
             In (ModelSet it TIME (CEst eta speed))
                ((((((ui w ++ [ModelSet it PROGRESS CText]) ++
                     [ModelSet it PERCENT
                        (CInt (percent10 (FP.size (props w)) ts `quot` 10))]) ++
                    [ModelSet it TIME (CEst eta speed)]) ++
                   [ModelSet it IMAGE (CStr icon)]) ++ post)%list)).
  { intros post. rewrite !in_app_iff. cbn. tauto. }
  repeat match type of Hw' with
         | context [if ?c then _ else _] => destruct c
         end.
  all: try match type of Hw' with
         | context [set_status ?st ?W] =>
             destruct (set_status_ui st W) as [post Hpost];
             pose proof (set_status_samples st W) as Hsam;
             rewrite <- Hw' in Hpost, Hsam; rewrite Hsam, Hpost
         end.
  all: try (subst w').
  all: cbn [props ui fst FP.transfered_size FP.set_transfered_size].
  all: split; [reflexivity|exists eta].
  all: try apply Hin.
  all: try (rewrite <- (app_nil_r (_ ++ [ModelSet it IMAGE _])); apply Hin).
Qed.




(** ** Recovery from a hash mismatch *)



End filetransfer_facts.

(* ===================================================================== *)
(** * Facts about [jingle_content]                                       *)
(* ===================================================================== *)

Module jingle_content_facts.

Module FP := file_props.
Import jingle_content.

(** ** Composition of state-keeping computations *)

Lemma keeps_bind {S A B} (R : S -> S -> Prop) (m : M S A) (k : A -> M S B) :
  (forall s, R s s) -> (forall a b c, R a b -> R b c -> R a c) ->
  keeps R m -> (forall a, keeps R (k a)) -> keeps R (bind m k).
Proof.
  intros Hrefl Htrans Hm Hk s. unfold bind.
  specialize (Hm s). destruct (m s) as [s' [e|a]]; cbn in *; [exact Hm|].
  eapply Htrans; [exact Hm|apply Hk].
Qed.

Lemma keeps_for_each {S A} (R : S -> S -> Prop) (xs : list A)
    (body : A -> M S unit) :
  (forall s, R s s) -> (forall a b c, R a b -> R b c -> R a c) ->
  (forall x, In x xs -> keeps R (body x)) -> keeps R (for_each xs body).
Proof.
  intros Hrefl Htrans. induction xs as [|x xs IH]; intros Hbody; cbn.
  - intros s. apply Hrefl.
  - apply keeps_bind; auto.
    + apply Hbody. now left.
    + intros _. apply IH. intros y Hy. apply Hbody. now right.
Qed.

Lemma evolves_refl (fill : bool) (w : World) : evolves fill w w.
Proof. unfold evolves. tauto. Qed.

Lemma evolves_trans (fill : bool) (a b c : World) :
  evolves fill a b -> evolves fill b c -> evolves fill a c.
Proof.
  unfold evolves.
  intros (Hc1 & Hn1 & Ha1 & Hcb1 & Hneg1 & Hs1) (Hc2 & Hn2 & Ha2 & Hcb2 & Hneg2 & Hs2).
  split_and!; try congruence.
  - destruct Hneg2 as [H2|[H2 H2']]; [destruct Hneg1 as [H1|[H1 H1']]|].
    + left; congruence.
    + right; split; congruence.
    + right; split; congruence.
  - destruct Hs2 as [H2|[H2 H2']]; [destruct Hs1 as [H1|[H1 H1']]|].
    + left; congruence.
    + right; split; congruence.
    + right; split; congruence.
Qed.

Lemma evolves_weaken (w w' : World) : evolves false w w' -> evolves true w w'.
Proof. unfold evolves. intuition congruence. Qed.

Ltac step_j1 :=
  unfold bind, ret, raise, gets, modify, when, attr_of, lift_w, set_content,
    in_world, on_self, session_call, transport_call, with_content in *;
  cbn [fst snd world content self session transport creator name accepted
       sent negotiated media senders allow_sending file_props use_security
       callbacks contents peerjid session_calls
       set_transport set_accepted set_sent set_negotiated set_file_props
       set_callbacks] in *.

Ltac step_j := step_j1; repeat (progress step_j1).

Section Facts.

Variable make_transport :
  JingleTransport -> option (list Candidate) -> bool -> JingleTransport * Res Node.
Variable parse_transport_stanza :
  JingleTransport -> option Node -> JingleTransport * Res (list Candidate).
Variable _compute_hash : FileProp -> FileProp * option Node.
Variable get_jid_without_resource : string -> string.
Variable load_cert_file : string -> option Certificate.
Variable MY_CERT : string.
Variable SELF_SIGNED_CERTIFICATE : string.

Local Abbreviation fill_content :=
  (_fill_content _compute_hash get_jid_without_resource load_cert_file
     MY_CERT SELF_SIGNED_CERTIFICATE).
Local Abbreviation fill_jingle_stanza :=
  (__fill_jingle_stanza make_transport _compute_hash get_jid_without_resource
     load_cert_file MY_CERT SELF_SIGNED_CERTIFICATE).
Local Abbreviation callback :=
  (run_callback make_transport parse_transport_stanza _compute_hash
     get_jid_without_resource load_cert_file MY_CERT SELF_SIGNED_CERTIFICATE).
Local Abbreviation stanza_handler :=
  (on_stanza make_transport parse_transport_stanza _compute_hash
     get_jid_without_resource load_cert_file MY_CERT SELF_SIGNED_CERTIFICATE).
Local Abbreviation dispatch_ :=
  (dispatch make_transport parse_transport_stanza _compute_hash
     get_jid_without_resource load_cert_file MY_CERT SELF_SIGNED_CERTIFICATE).
Local Abbreviation exec_ :=
  (exec make_transport parse_transport_stanza _compute_hash
     get_jid_without_resource load_cert_file MY_CERT SELF_SIGNED_CERTIFICATE).
Local Abbreviation run_ :=
  (run make_transport parse_transport_stanza _compute_hash
     get_jid_without_resource load_cert_file MY_CERT SELF_SIGNED_CERTIFICATE).

(** ** What each method changes *)

Lemma on_negotiated_evolves (w : World) :
  evolves false w (fst (on_negotiated w)).
Proof.
  unfold on_negotiated, evolves. step_j.
  destruct (accepted (self w)) eqn:Ha; cbn; tauto.
Qed.

Lemma fill_content_evolves (fr : Frame) :
  evolves false (world fr) (world (fst (fill_content fr))).
Proof.
  unfold _fill_content, evolves. step_j.
  repeat (case_match; step_j; simplify_eq/=); tauto.
Qed.

Lemma callback_evolves (cb : Callback) (stanza : Node) (error : option Node)
    (action : string) (fr : Frame) :
  evolves (bool_decide (cb = cb_fill_jingle_stanza)) (world fr)
          (world (fst (callback cb stanza error action fr))).
Proof.
  destruct cb; cbn [run_callback].
  - unfold __on_transport_info, add_remote_candidates, evolves. step_j.
    repeat (case_match; step_j; simplify_eq/=); tauto.
  - unfold __on_content_accept. step_j.
    pose proof (on_negotiated_evolves (world fr)) as H.
    destruct (on_negotiated (world fr)); exact H.
  - unfold __on_transport_replace, evolves. step_j.
    repeat (case_match; step_j; simplify_eq/=); tauto.
  - unfold __fill_jingle_stanza. unfold bind at 1.
    pose proof (fill_content_evolves fr) as H.
    destruct (fill_content fr) as [fr1 [e|[]]]; cbn [fst] in *.
    + apply evolves_weaken, H.
    + eapply evolves_trans; [apply evolves_weaken, H|].
      unfold evolves. step_j.
      repeat (case_match; step_j; simplify_eq/=); tauto.
Qed.


Lemma handlers_evolve (fill : bool) (handlers : list Callback) (stanza : Node)
    (error : option Node) (action : string) (fr : Frame) :
  (fill = false -> cb_fill_jingle_stanza ∉ handlers) ->
  evolves fill (world fr)
    (world (fst (for_each handlers
                   (fun cb => callback cb stanza error action) fr))).
Proof.
  intros Hfill.
  apply (keeps_for_each (fun a b => evolves fill (world a) (world b))).
  - intros s. apply evolves_refl.
  - intros a b c. apply evolves_trans.
  - intros cb Hin fr'.
    pose proof (callback_evolves cb stanza error action fr') as H.
    destruct fill.
    + destruct (bool_decide (cb = cb_fill_jingle_stanza));
        [exact H|apply evolves_weaken, H].
    + rewrite bool_decide_eq_false_2 in H; [exact H|].
      intros ->. apply (Hfill eq_refl). apply list_elem_of_In. exact Hin.
Qed.

Lemma on_stanza_evolves (stanza : Node) (error : option Node) (action : string)
    (fr : Frame) :
  evolves (runs_fill (call_on_stanza stanza (content fr) error action) (world fr))
          (world fr) (world (fst (stanza_handler stanza error action fr))).
Proof.
  unfold on_stanza, runs_fill. step_j.
  destruct (callbacks (self (world fr))) as [table|]; [|apply evolves_refl].
  destruct (table !! action) as [handlers|]; [|apply evolves_refl].
  apply handlers_evolve. intros Hb.
  apply bool_decide_eq_false_1 in Hb. exact Hb.
Qed.

(** Every call other than [destroy] and the session's assignment. *)
Lemma exec_evolves (op : Op) (w : World) :
  op <> call_destroy -> op <> assign_accepted ->
  evolves (runs_fill op w) w (fst (exec_ op w)).
Proof.
  intros Hd Ha.
  destruct op as [st c e a| |cands|cand| | | |]; try congruence;
    cbn [exec runs_fill].
  - unfold dispatch.
    pose proof (on_stanza_evolves st e a (mkFrame w c)) as H.
    cbn [world content] in H.
    destruct (stanza_handler st e a (mkFrame w c)); exact H.
  - apply on_negotiated_evolves.
  - unfold add_remote_candidates, evolves. step_j.
    repeat (case_match; step_j; simplify_eq/=); tauto.
  - unfold send_candidate, evolves. step_j.
    repeat (case_match; step_j; simplify_eq/=); tauto.
  - unfold send_error_candidate, evolves. step_j.
    repeat (case_match; step_j; simplify_eq/=); tauto.
  - unfold send_description_info. step_j.
    pose proof (fill_content_evolves (mkFrame w (Some (__content (self w))))) as H.
    cbn [world] in H.
    destruct (fill_content _) as [fr1 [e|[]]]; cbn [fst world] in *; [exact H|].
    destruct (jingle_content.content fr1); cbn; [|exact H].
    unfold evolves in *. cbn. exact H.
Qed.


(** [destroy] leaves the flags and the identity alone and drops the
    callbacks table. *)
Lemma destroy_self (w : World) :
  self (fst (destroy w)) = set_callbacks None (self w).
Proof.
  unfold destroy. step_j.
  destruct (contents (session w) !! _); reflexivity.
Qed.

(** What one call does to the three flags. *)
Lemma exec_flags (op : Op) (w : World) :
  let w' := fst (exec_ op w) in
  (negotiated (self w') = negotiated (self w)
   \/ (accepted (self w) = true /\ negotiated (self w') = true))
  /\ (accepted (self w') = accepted (self w) \/ accepted (self w') = true)
  /\ (sent (self w') = sent (self w)
      \/ (runs_fill op w = true /\ sent (self w') = true)).
Proof.
  cbn zeta.
  assert (Hcases : op = call_destroy \/ op = assign_accepted
                   \/ (op <> call_destroy /\ op <> assign_accepted)).
  { destruct op; auto; right; right; split; discriminate. }
  destruct Hcases as [->|[->|[Hd Ha]]].
  - cbn [exec]. rewrite destroy_self. cbn. tauto.
  - cbn. tauto.
  - destruct (exec_evolves op w Hd Ha) as (_ & _ & Hacc & _ & Hneg & Hsent).
    tauto.
Qed.

(** The callbacks of the four fill actions in the table of [__init__]. *)
Lemma fill_action_callbacks (action : string) :
  In action fill_actions ->
  exists rest,
    default_callbacks !! action = Some (cb_fill_jingle_stanza :: rest).
Proof.
  intros [<-|[<-|[<-|[<-|[]]]]]; eexists; vm_compute; reflexivity.
Qed.

(** The fill callback sets [sent] as soon as the content is filled. *)
Lemma fill_sets_sent (stanza : Node) (error : option Node) (action : string)
    (fr : Frame) :
  snd (fill_content fr) = inr tt ->
  sent (self (world (fst (fill_jingle_stanza stanza error action fr)))) = true.
Proof.
  intros Hok. unfold __fill_jingle_stanza. unfold bind at 1.
  destruct (fill_content fr) as [fr1 [e|[]]]; cbn in Hok; [discriminate|].
  step_j. repeat (case_match; step_j; simplify_eq/=); reflexivity.
Qed.


(** ** Negotiated implies accepted *)

(** C8: a new content is neither negotiated nor accepted; a call sets
    [negotiated] only in a state where [accepted] is already true; hence
    [negotiated => accepted], once true, stays true through every sequence
    of calls (dispatched actions of any kind, the other methods, and the
    session marking the content accepted). *)
Theorem negotiated_implies_accepted :
  (forall transport senders,
     negotiated (__init__ transport senders) = false
     /\ accepted (__init__ transport senders) = false)
  /\ (forall op w,
        negotiated (self w) = false ->
        negotiated (self (fst (exec_ op w))) = true ->
        accepted (self w) = true)
  /\ (forall ops w,
        (negotiated (self w) = true -> accepted (self w) = true) ->
        negotiated (self (run_ ops w)) = true ->
        accepted (self (run_ ops w)) = true).
Proof.
  split_and!.
  - intros transport senders. split; reflexivity.
  - intros op w Hn Hn'.
    destruct (exec_flags op w) as ([H|[H _]] & _ & _); [congruence|exact H].
  - induction ops as [|op ops IH]; intros w Hinv; cbn [run]; [exact Hinv|].
    apply IH. intros Hn'.
    destruct (exec_flags op w) as ([H|[H _]] & [Ha|Ha] & _); try congruence.
    rewrite Ha. apply Hinv. congruence.
Qed.

(** ** Sent if and only if filled *)


(** ** A destroyed content *)

(** C10: [destroy] sets the callbacks table to [None] and deletes the
    content's [(creator, name)] key from the session's map (raising
    [KeyError] after the table is dropped when the key is not there);
    nothing brings the table back, so from then on every [on_stanza], for
    every action, raises and changes nothing. *)
Theorem destroyed_content_rejects_dispatch (w : World) :
  let key := (creator (self w), name (self w)) in
  let w' := fst (destroy w) in
  callbacks (self w') = None
  /\ contents (session w') = delete key (contents (session w))
  /\ contents (session w') !! key = None
  /\ snd (destroy w)
     = match contents (session w) !! key with
       | Some _ => inr tt
       | None => inl KeyError
       end
  /\ (forall ops stanza c error action,
        callbacks (self (run_ ops w')) = None
        /\ dispatch_ stanza c error action (run_ ops w')
           = (mkFrame (run_ ops w') c, inl TypeError)).
Proof.
  cbn zeta.
  assert (Hcb : callbacks (self (fst (destroy w))) = None)
    by (rewrite destroy_self; reflexivity).
  split_and!.
  - exact Hcb.
  - unfold destroy. step_j.
    destruct (contents (session w) !! _) eqn:Hk; cbn; [reflexivity|].
    symmetry. apply delete_id. exact Hk.
  - unfold destroy. step_j.
    destruct (contents (session w) !! _) eqn:Hk; cbn; [|exact Hk].
    apply lookup_delete_eq.
  - unfold destroy. step_j.
    destruct (contents (session w) !! _); reflexivity.
  - intros ops stanza c error action.
    assert (Hrun : forall ops v, callbacks (self v) = None ->
                                 callbacks (self (run_ ops v)) = None).
    { clear. induction ops as [|op ops IH]; intros v Hv; cbn [run]; [exact Hv|].
      apply IH.
      assert (Hcases : op = call_destroy \/ op = assign_accepted
                       \/ (op <> call_destroy /\ op <> assign_accepted)).
      { destruct op; auto; right; right; split; discriminate. }
      destruct Hcases as [->|[->|[Hd Ha]]].
      - cbn [exec]. rewrite destroy_self. reflexivity.
      - cbn. exact Hv.
      - destruct (exec_evolves op v Hd Ha) as (_ & _ & _ & H & _). congruence. }
    specialize (Hrun ops _ Hcb). split; [exact Hrun|].
    unfold dispatch, on_stanza. step_j. rewrite Hrun. reflexivity.
Qed.


(** ** The accept handler *)



(** ** Filling the outbound content *)

Lemma getChildren_addChild (k n : Node) :
  nbxmpp.getChildren (nbxmpp.addChild k n) = (nbxmpp.getChildren n ++ [k])%list.
Proof. destruct n. reflexivity. Qed.

(** The security element [_fill_content] attaches, if any. *)
Local Abbreviation security_part w :=
  (match use_security (self w) with
   | Some true =>
       match load_cert_file (certpath MY_CERT SELF_SIGNED_CERTIFICATE) with
       | Some cert => [security_node cert]
       | None => []
       end
   | _ => []
   end).

(** [_fill_content] on a content with a record: it returns, and appends
    the security element (if any) and then the description to the node. *)
Lemma fill_content_children (c : Node) (fp : FileProp) (w : World) :
  file_props (self w) = Some fp ->
  exists file_tag w',
    fill_content (mkFrame w (Some c))
    = (mkFrame w'
         (Some (nbxmpp.addChildren (security_part w ++ [description_element file_tag]) c)),
       inr tt)
    /\ transport (self w') = transport (self w)
    /\ sent (self w') = sent (self w).
Proof.
  intros Hfp. unfold _fill_content. step_j. rewrite Hfp. step_j.
  destruct (is_str (FP.type_ fp) "r").
  - step_j. rewrite Hfp. step_j.
    destruct (use_security (self w)) as [[|]|];
      [destruct (load_cert_file _)| |]; step_j;
      eexists _, _; split_and!; reflexivity.
  - destruct ((FP.size fp <? 10000000) && negb (truthy (FP.hash_ fp))).
    + destruct (_compute_hash fp) as [fp' hd]. step_j.
      destruct (use_security (self w)) as [[|]|];
        [destruct (load_cert_file _)| |]; step_j;
        eexists _, _; split_and!; reflexivity.
    + step_j. rewrite Hfp. step_j.
      destruct (use_security (self w)) as [[|]|];
        [destruct (load_cert_file _)| |]; step_j;
        eexists _, _; split_and!; reflexivity.
Qed.

(** C1, amended: the fill-stanza callback appends to the outbound content
    node, in this order: the security element (when [use_security] is
    true and the certificate loads), then the description element, then
    the transport payload; and it sets [sent]. *)
Theorem fill_children_order (stanza : Node) (error : option Node)
    (action : string) (c : Node) (fp : FileProp) (t t' : JingleTransport)
    (tp : Node) (w : World) :
  file_props (self w) = Some fp ->
  transport (self w) = Some t ->
  make_transport t None true = (t', inr tp) ->
  let after := fill_jingle_stanza stanza error action (mkFrame w (Some c)) in
  exists description filled,
    snd after = inr tt
    /\ content (fst after) = Some filled
    /\ nbxmpp.getChildren filled
       = (nbxmpp.getChildren c ++ security_part w ++ [description; tp])%list
    /\ nbxmpp.getName description = "description"
    /\ Forall (fun s => nbxmpp.getName s = "security") (security_part w)
    /\ sent (self (world (fst after))) = true.
Proof.
  intros Hfp Ht Hmk. cbn zeta.
  destruct (fill_content_children c fp w Hfp) as (file_tag & w' & Hfill & Htr & _).
  assert (Hafter :
            fill_jingle_stanza stanza error action (mkFrame w (Some c))
            = (mkFrame
                 (mkWorld (set_transport (Some t') (set_sent true (self w')))
                          (session w'))
                 (Some (nbxmpp.addChild tp
                          (nbxmpp.addChildren
                             (security_part w ++ [description_element file_tag])
                             c))),
               inr tt)).
  { unfold __fill_jingle_stanza. unfold bind at 1. rewrite Hfill.
    step_j. rewrite Htr, Ht, Hmk. reflexivity. }
  rewrite Hafter. cbn [fst snd content world self sent set_transport].
  eexists (description_element file_tag), _.
  split_and!; try reflexivity.
  - rewrite getChildren_addChild.
    destruct (use_security (self w)) as [[|]|];
      [destruct (load_cert_file _)| |]; cbn [nbxmpp.addChildren fold_left app];
      rewrite !getChildren_addChild, <- ?app_assoc; reflexivity.
  - destruct (use_security (self w)) as [[|]|];
      [destruct (load_cert_file _)| |]; repeat constructor.
Qed.


End Facts.

(** ** The properties on the sample content *)

Local Abbreviation s_fill_jingle_stanza :=
  (__fill_jingle_stanza sample_content.make_transport
     sample_content._compute_hash sample_content.get_jid_without_resource
     sample_content.load_cert_file sample_content.MY_CERT
     sample_content.SELF_SIGNED_CERTIFICATE).
Local Abbreviation s_fill_content :=
  (_fill_content sample_content._compute_hash
     sample_content.get_jid_without_resource sample_content.load_cert_file
     sample_content.MY_CERT sample_content.SELF_SIGNED_CERTIFICATE).
Local Abbreviation s_exec :=
  (exec sample_content.make_transport sample_content.parse_transport_stanza
     sample_content._compute_hash sample_content.get_jid_without_resource
     sample_content.load_cert_file sample_content.MY_CERT
     sample_content.SELF_SIGNED_CERTIFICATE).
Local Abbreviation s_run :=
  (run sample_content.make_transport sample_content.parse_transport_stanza
     sample_content._compute_hash sample_content.get_jid_without_resource
     sample_content.load_cert_file sample_content.MY_CERT
     sample_content.SELF_SIGNED_CERTIFICATE).
Local Abbreviation s_dispatch :=
  (dispatch sample_content.make_transport sample_content.parse_transport_stanza
     sample_content._compute_hash sample_content.get_jid_without_resource
     sample_content.load_cert_file sample_content.MY_CERT
     sample_content.SELF_SIGNED_CERTIFICATE).

(** C1, as the document words it, fails on the code: with security in
    use, the children of the filled node are security, description,
    transport, so the description does not come before the security
    element. *)
Lemma security_precedes_description :
  exists filled,
    content (fst (s_fill_jingle_stanza sample_content.stanza None
                    "session-initiate-sent"
                    (mkFrame (sample_content.world_with true false (Some true)
                                (Some (sample_content.send_record 8000000)))
                             (Some sample_content.out_content))))
    = Some filled
    /\ List.map nbxmpp.getName (nbxmpp.getChildren filled)
       = ["security"; "description"; "transport"]
    /\ design.description_security_transport (nbxmpp.getChildren filled) = false.
Proof. eexists. split_and!; vm_compute; reflexivity. Qed.

Lemma fill_children_order_witness :
  exists description filled,
    content (fst (s_fill_jingle_stanza sample_content.stanza None
                    "session-initiate-sent"
                    (mkFrame (sample_content.world_with true false (Some true)
                                (Some (sample_content.send_record 8000000)))
                             (Some sample_content.out_content))))
    = Some filled
    /\ nbxmpp.getChildren filled
       = ([] ++ [security_node sample_content.certificate]
          ++ [description;
              nbxmpp.new_node_ns "urn:xmpp:jingle:transports:s5b:1" "transport"])%list.
Proof.
  destruct (fill_children_order sample_content.make_transport
              sample_content._compute_hash
              sample_content.get_jid_without_resource
              sample_content.load_cert_file sample_content.MY_CERT
              sample_content.SELF_SIGNED_CERTIFICATE
              sample_content.stanza None "session-initiate-sent"
              sample_content.out_content (sample_content.send_record 8000000)
              sample_content.transport0 sample_content.transport0
              (nbxmpp.new_node_ns "urn:xmpp:jingle:transports:s5b:1" "transport")
              (sample_content.world_with true false (Some true)
                 (Some (sample_content.send_record 8000000))))
    as (description & filled & _ & Hc & Hk & _).
  - reflexivity.
  - reflexivity.
  - reflexivity.
  - exists description, filled. split; [exact Hc|exact Hk].
Defined.




(** A content that is accepted, then sends session-accept, then receives
    content-accept. *)
Lemma negotiated_implies_accepted_witness :
  let w := sample_content.world_with false false None
             (Some (sample_content.send_record 8000000)) in
  let ops := [ assign_accepted;
               call_on_stanza sample_content.stanza
                 (Some sample_content.out_content) None "session-accept-sent";
               call_on_stanza sample_content.stanza
                 (Some sample_content.in_content) None "content-accept" ] in
  negotiated (self (s_run ops w)) = true
  /\ accepted (self (s_run ops w)) = true.
Proof.
  cbn zeta.
  assert (Hn : negotiated
                 (self (s_run
                          [ assign_accepted;
                            call_on_stanza sample_content.stanza
                              (Some sample_content.out_content) None
                              "session-accept-sent";
                            call_on_stanza sample_content.stanza
                              (Some sample_content.in_content) None
                              "content-accept" ]
                          (sample_content.world_with false false None
                             (Some (sample_content.send_record 8000000)))))
               = true)
    by (vm_compute; reflexivity).
  split; [exact Hn|].
  apply (negotiated_implies_accepted sample_content.make_transport
           sample_content.parse_transport_stanza sample_content._compute_hash
           sample_content.get_jid_without_resource
           sample_content.load_cert_file sample_content.MY_CERT
           sample_content.SELF_SIGNED_CERTIFICATE).
  - discriminate.
  - exact Hn.
Defined.


End jingle_content_facts.
